(** * demultiplex.py: a shallow embedding and its verified properties

    The program reads four FASTQ streams in lockstep (two primary reads and
    two index reads), classifies every group of four records with a bit flag
    (N = 1, IH = 2, QS = 4, E = 8) and appends the two primary records either
    to the files of the barcode or to the reject files.

    Conventions of the embedding.
    - The program is a Python 3 program (its comments hold non-ASCII
      characters without an encoding declaration, which Python 2 refuses).
      A Python [str] is a [string] and a character an [ascii] (a code
      point below 256); a [bytes] object is a [string] of bytes.  A
      value that may be either is a [pyval]: [Str s] or [Bytes b].  The two
      never compare equal and cannot be concatenated with each other
      (TypeError).
    - A stream is the list of the lines [readline] will return, with the
      mode it was opened in: [readline] returns [bytes] on a binary stream
      and [str] on a text stream.  The program opens its four streams with
      [gzip.open(path, "r")], which is binary ([gzip_open]).
    - Python [int] values are [Z]; the quotient [total/bp] is an exact
      rational ([Q]).  Only its comparison with the cutoff is observed, and
      that comparison is the same for floor division (lemma
      [floor_mean_cutoff]).
    - An exception aborts the program: fallible code returns [result].
    - The four record arrays ([read1], [indexR1], [indexR2], [read2]) are
      Python lists created as [[None] * 4] and updated in place: they are
      [list (option pyval)], written back by every function that mutates
      its argument.
    - The [indices] dict and the file system are finite maps; a file is
      the text written to it so far.
    - The summary report written after the loop only prints the counters
      and the table of the final state; it is not part of the embedding. *)

From Stdlib Require Import ZArith QArith Ascii String.
From stdpp Require Import base tactics option list gmap strings.

Local Open Scope Z_scope.

(** ** Exceptions and the error monad *)

Inductive exn : Set :=
| ZeroDivisionError
| IndexError
| TypeError
| NameError
| KeyError.

Inductive result (A : Type) : Type :=
| Ok (a : A)
| Raise (e : exn).
Arguments Ok {A} a.
Arguments Raise {A} e.

Definition bind {A B : Type} (m : result A) (k : A → result B) : result B :=
  match m with
  | Ok a => k a
  | Raise e => Raise e
  end.

Notation "x <- m ;; k" := (bind m (λ x, k))
  (at level 100, m at next level, right associativity, only parsing).

(** What is observed of a result: nothing when it is an exception. *)
Definition on_ok {A B : Type} (f : A → B) (r : result A) : option B :=
  match r with
  | Ok a => Some (f a)
  | Raise _ => None
  end.

(** ** Strings and bytes as Python uses them *)

Inductive pyval : Set :=
| Str (s : string)
| Bytes (b : string).

Module Py.

(** [ord(c)] *)
Definition ord (c : ascii) : Z := Z.of_N (N_of_ascii c).

(** [len(s)] *)
Definition len (s : string) : nat := String.length s.

(** [c in s] for a one-character [c] *)
Fixpoint contains (c : ascii) (s : string) : bool :=
  match s with
  | EmptyString => false
  | String x rest => if Ascii.eqb x c then true else contains c rest
  end.

(** [s[1:]] *)
Definition slice_1 (s : string) : string :=
  match s with
  | EmptyString => EmptyString
  | String _ rest => rest
  end.

(** [s[:-1]] *)
Fixpoint slice_m1 (s : string) : string :=
  match s with
  | EmptyString => EmptyString
  | String x rest =>
      match rest with
      | EmptyString => EmptyString
      | String _ _ => String x (slice_m1 rest)
      end
  end.

(** [s[1:-1]] *)
Definition slice_1_m1 (s : string) : string := slice_m1 (slice_1 s).

(** [s[i]] on a string: the one-character string at [i], IndexError out
    of range (only non-negative indices are used by the program). *)
Fixpoint str_getitem (s : string) (i : nat) : result string :=
  match s, i with
  | EmptyString, _ => Raise IndexError
  | String x _, O => Ok (String x EmptyString)
  | String _ rest, S j => str_getitem rest j
  end.

(** White space as [bytes.strip()] sees it: space, \t, \n, \v, \f, \r. *)
Definition is_space_bytes (x : ascii) : bool := Ascii.is_space x.

(** White space as [str.strip()] sees it, among the code points below
    256: the six above, the separators 28 to 31, NEL and the no-break
    space. *)
Definition is_space_str (x : ascii) : bool :=
  Ascii.is_space x ||
  (let n := N_of_ascii x in
   (28 <=? n)%N && (n <=? 31)%N || (n =? 133)%N || (n =? 160)%N).

(** [s.strip()]: leading and trailing white space removed. *)
Fixpoint lstrip (space : ascii → bool) (s : string) : string :=
  match s with
  | EmptyString => EmptyString
  | String x rest => if space x then lstrip space rest else s
  end.

Definition rstrip (space : ascii → bool) (s : string) : string :=
  String.rev (lstrip space (String.rev s)).

Definition strip (space : ascii → bool) (s : string) : string :=
  rstrip space (lstrip space s).

Definition strip_val (v : pyval) : pyval :=
  match v with
  | Str s => Str (strip is_space_str s)
  | Bytes b => Bytes (strip is_space_bytes b)
  end.

(** [v == w]: a [str] and a [bytes] are never equal. *)
Definition eq (v w : pyval) : bool :=
  match v, w with
  | Str s, Str t => String.eqb s t
  | Bytes a, Bytes b => String.eqb a b
  | _, _ => false
  end.

(** [v + w]: TypeError when one is a [str] and the other a [bytes]. *)
Definition add (v w : pyval) : result pyval :=
  match v, w with
  | Str s, Str t => Ok (Str (s +:+ t))
  | Bytes a, Bytes b => Ok (Bytes (a +:+ b))
  | _, _ => Raise TypeError
  end.

(** A value used where only a [str] will do, as the argument of
    [out.write] on a file opened as text. *)
Definition text (v : pyval) : result string :=
  match v with
  | Str s => Ok s
  | Bytes _ => Raise TypeError
  end.

(** [l[i]] on a list of lines: IndexError out of range; an entry that
    is still [None] cannot be used as a line (TypeError). *)
Definition list_getitem (l : list (option pyval)) (i : nat)
  : result pyval :=
  match l !! i with
  | None => Raise IndexError
  | Some None => Raise TypeError
  | Some (Some v) => Ok v
  end.

(** [l[i] = v]: IndexError out of range. *)
Definition list_setitem (l : list (option pyval)) (i : nat) (v : pyval)
  : result (list (option pyval)) :=
  if (i <? length l)%nat then Ok (<[i := Some v]> l)
  else Raise IndexError.

(** [a / b] *)
Definition div (a b : Z) : result Q :=
  if b =? 0 then Raise ZeroDivisionError
  else Ok (Qmake a (Z.to_pos b)).

End Py.

(** [read[i]] is used by the program on records (lists of lines) and on
    plain strings alike. *)
Class Subscript (T : Type) := getitem : T → nat → result pyval.
#[export] Instance subscript_str : Subscript string :=
  λ s i, c <- Py.str_getitem s i;; Ok (Str c).
#[export] Instance subscript_list : Subscript (list (option pyval)) :=
  Py.list_getitem.

(** ** containsN *)

Definition containsN (index : string) : bool := Py.contains "N"%char index.

(** ** matching *)

Module Matcher.

(** The body of the [for x in index2] loop. *)
Definition complement (x : ascii) : ascii :=
  if Ascii.eqb x "A" then "T"
  else if Ascii.eqb x "T" then "A"
  else if Ascii.eqb x "G" then "C"
  else if Ascii.eqb x "C" then "G"
  else "N".

(** The loop itself: every step puts the complement in front. *)
Fixpoint inverse_loop (index2 : string) (inverse : string) : string :=
  match index2 with
  | EmptyString => inverse
  | String x rest => inverse_loop rest (String (complement x) inverse)
  end.

(** Which arm of the if / elif / elif chain is executed. *)
Inductive trim_branch : Set :=
| TrimFirst      (* if containsN(index1) *)
| TrimLast       (* elif containsN(index2) *)
| TrimBoth       (* elif containsN(index1) and containsN(index2) *)
| NoTrim.

Definition trim_select (index1 index2 : string) : trim_branch :=
  if containsN index1 then TrimFirst
  else if containsN index2 then TrimLast
  else if containsN index1 && containsN index2 then TrimBoth
  else NoTrim.

(** The assignments of the selected arm, on [(index1, inverse)]. *)
Definition trim_apply (b : trim_branch) (index1 inverse : string)
  : string * string :=
  match b with
  | TrimFirst => (Py.slice_1 index1, Py.slice_1 inverse)
  | TrimLast => (Py.slice_m1 index1, Py.slice_m1 inverse)
  | TrimBoth => (Py.slice_1_m1 index1, Py.slice_1_m1 inverse)
  | NoTrim => (index1, inverse)
  end.

Definition matching (index1 index2 : string) : bool :=
  let inverse := inverse_loop index2 EmptyString in
  let '(index1, inverse) :=
    trim_apply (trim_select index1 index2) index1 inverse in
  String.eqb inverse index1.

(** The matcher as the specification words it. *)
Fixpoint reverse_complement (s : string) : string :=
  match s with
  | EmptyString => EmptyString
  | String x rest =>
      reverse_complement rest +:+ String (complement x) EmptyString
  end.

Definition matching_spec (index1 index2 : string) : bool :=
  let rc := reverse_complement index2 in
  if containsN index1 then
    String.eqb (Py.slice_1 rc) (Py.slice_1 index1)
  else if containsN index2 then
    String.eqb (Py.slice_m1 rc) (Py.slice_m1 index1)
  else String.eqb rc index1.

(** Sequences over the alphabet A, C, G, T. *)
Definition is_base (x : ascii) : bool :=
  Ascii.eqb x "A" || Ascii.eqb x "C" || Ascii.eqb x "G" || Ascii.eqb x "T".

Fixpoint over_acgt (s : string) : bool :=
  match s with
  | EmptyString => true
  | String x rest => is_base x && over_acgt rest
  end.

End Matcher.

(** ** Quality scores *)

Definition convertPhred (letter : ascii) : Z := Py.ord letter - 33.

(** The [for base in read[3]] loop of meanQS on [(total, bp)]. *)
Fixpoint meanQS_loop (quality : string) (total bp : Z) : Z * Z :=
  match quality with
  | EmptyString => (total, bp)
  | String base rest => meanQS_loop rest (total + convertPhred base) (bp + 1)
  end.

(** The loop on the value [read[3]].  The elements of a [bytes] are
    integers, on which [ord] raises TypeError in the first turn; on an empty
    value there is no turn. *)
Definition meanQS_for (quality : pyval) : result (Z * Z) :=
  match quality with
  | Str q => Ok (meanQS_loop q 0 0)
  | Bytes EmptyString => Ok (0, 0)
  | Bytes (String _ _) => Raise TypeError
  end.

Definition meanQS {T : Type} `{Subscript T} (read : T) : result Q :=
  quality <- getitem read 3%nat;;
  w <- meanQS_for quality;;
  let '(total, bp) := w in
  Py.div total bp.

Definition cutoffQS : Z := 32.

Definition compareMeans {T : Type} `{Subscript T} (read : T) : result bool :=
  mean <- meanQS read;;
  Ok (Qle_bool (inject_Z cutoffQS) mean).

(** ** The program state

    The four open streams (the lines not yet read), the four record
    arrays, the module-level variables and the output files.  [index1] and
    [index2] are unbound until the first record has been read; [end_] is
    the variable [end] and [N_] the counter [N]. *)

Inductive mode : Set := Binary | Text.

Record stream : Set := MkStream {
  opened : mode;
  lines : list string
}.

Record state : Type := MkState {
  R1 : stream;
  R2 : stream;
  I1 : stream;
  I2 : stream;
  read1 : list (option pyval);
  indexR1 : list (option pyval);
  indexR2 : list (option pyval);
  read2 : list (option pyval);
  index1 : option string;
  index2 : option string;
  end_ : bool;
  flag : Z;
  N_ : Z;
  IH : Z;
  QS : Z;
  reads : Z;
  indices : gmap string Z;
  files : gmap string string
}.

Definition set_R1 (v : stream) (st : state) : state :=
  {| R1 := v; R2 := R2 st; I1 := I1 st; I2 := I2 st; read1 := read1 st;
     indexR1 := indexR1 st; indexR2 := indexR2 st; read2 := read2 st; index1
     := index1 st; index2 := index2 st; end_ := end_ st; flag := flag st; N_
     := N_ st; IH := IH st; QS := QS st; reads := reads st; indices :=
     indices st; files := files st |}.
Definition set_R2 (v : stream) (st : state) : state :=
  {| R1 := R1 st; R2 := v; I1 := I1 st; I2 := I2 st; read1 := read1 st;
     indexR1 := indexR1 st; indexR2 := indexR2 st; read2 := read2 st; index1
     := index1 st; index2 := index2 st; end_ := end_ st; flag := flag st; N_
     := N_ st; IH := IH st; QS := QS st; reads := reads st; indices :=
     indices st; files := files st |}.
Definition set_I1 (v : stream) (st : state) : state :=
  {| R1 := R1 st; R2 := R2 st; I1 := v; I2 := I2 st; read1 := read1 st;
     indexR1 := indexR1 st; indexR2 := indexR2 st; read2 := read2 st; index1
     := index1 st; index2 := index2 st; end_ := end_ st; flag := flag st; N_
     := N_ st; IH := IH st; QS := QS st; reads := reads st; indices :=
     indices st; files := files st |}.
Definition set_I2 (v : stream) (st : state) : state :=
  {| R1 := R1 st; R2 := R2 st; I1 := I1 st; I2 := v; read1 := read1 st;
     indexR1 := indexR1 st; indexR2 := indexR2 st; read2 := read2 st; index1
     := index1 st; index2 := index2 st; end_ := end_ st; flag := flag st; N_
     := N_ st; IH := IH st; QS := QS st; reads := reads st; indices :=
     indices st; files := files st |}.
Definition set_read1 (v : list (option pyval)) (st : state) : state :=
  {| R1 := R1 st; R2 := R2 st; I1 := I1 st; I2 := I2 st; read1 := v; indexR1
     := indexR1 st; indexR2 := indexR2 st; read2 := read2 st; index1 :=
     index1 st; index2 := index2 st; end_ := end_ st; flag := flag st; N_ :=
     N_ st; IH := IH st; QS := QS st; reads := reads st; indices := indices
     st; files := files st |}.
Definition set_indexR1 (v : list (option pyval)) (st : state) : state :=
  {| R1 := R1 st; R2 := R2 st; I1 := I1 st; I2 := I2 st; read1 := read1 st;
     indexR1 := v; indexR2 := indexR2 st; read2 := read2 st; index1 :=
     index1 st; index2 := index2 st; end_ := end_ st; flag := flag st; N_ :=
     N_ st; IH := IH st; QS := QS st; reads := reads st; indices := indices
     st; files := files st |}.
Definition set_indexR2 (v : list (option pyval)) (st : state) : state :=
  {| R1 := R1 st; R2 := R2 st; I1 := I1 st; I2 := I2 st; read1 := read1 st;
     indexR1 := indexR1 st; indexR2 := v; read2 := read2 st; index1 :=
     index1 st; index2 := index2 st; end_ := end_ st; flag := flag st; N_ :=
     N_ st; IH := IH st; QS := QS st; reads := reads st; indices := indices
     st; files := files st |}.
Definition set_read2 (v : list (option pyval)) (st : state) : state :=
  {| R1 := R1 st; R2 := R2 st; I1 := I1 st; I2 := I2 st; read1 := read1 st;
     indexR1 := indexR1 st; indexR2 := indexR2 st; read2 := v; index1 :=
     index1 st; index2 := index2 st; end_ := end_ st; flag := flag st; N_ :=
     N_ st; IH := IH st; QS := QS st; reads := reads st; indices := indices
     st; files := files st |}.
Definition set_index1 (v : option string) (st : state) : state :=
  {| R1 := R1 st; R2 := R2 st; I1 := I1 st; I2 := I2 st; read1 := read1 st;
     indexR1 := indexR1 st; indexR2 := indexR2 st; read2 := read2 st; index1
     := v; index2 := index2 st; end_ := end_ st; flag := flag st; N_ := N_
     st; IH := IH st; QS := QS st; reads := reads st; indices := indices st;
     files := files st |}.
Definition set_index2 (v : option string) (st : state) : state :=
  {| R1 := R1 st; R2 := R2 st; I1 := I1 st; I2 := I2 st; read1 := read1 st;
     indexR1 := indexR1 st; indexR2 := indexR2 st; read2 := read2 st; index1
     := index1 st; index2 := v; end_ := end_ st; flag := flag st; N_ := N_
     st; IH := IH st; QS := QS st; reads := reads st; indices := indices st;
     files := files st |}.
Definition set_end_ (v : bool) (st : state) : state :=
  {| R1 := R1 st; R2 := R2 st; I1 := I1 st; I2 := I2 st; read1 := read1 st;
     indexR1 := indexR1 st; indexR2 := indexR2 st; read2 := read2 st; index1
     := index1 st; index2 := index2 st; end_ := v; flag := flag st; N_ := N_
     st; IH := IH st; QS := QS st; reads := reads st; indices := indices st;
     files := files st |}.
Definition set_flag (v : Z) (st : state) : state :=
  {| R1 := R1 st; R2 := R2 st; I1 := I1 st; I2 := I2 st; read1 := read1 st;
     indexR1 := indexR1 st; indexR2 := indexR2 st; read2 := read2 st; index1
     := index1 st; index2 := index2 st; end_ := end_ st; flag := v; N_ := N_
     st; IH := IH st; QS := QS st; reads := reads st; indices := indices st;
     files := files st |}.
Definition set_N_ (v : Z) (st : state) : state :=
  {| R1 := R1 st; R2 := R2 st; I1 := I1 st; I2 := I2 st; read1 := read1 st;
     indexR1 := indexR1 st; indexR2 := indexR2 st; read2 := read2 st; index1
     := index1 st; index2 := index2 st; end_ := end_ st; flag := flag st; N_
     := v; IH := IH st; QS := QS st; reads := reads st; indices := indices
     st; files := files st |}.
Definition set_IH (v : Z) (st : state) : state :=
  {| R1 := R1 st; R2 := R2 st; I1 := I1 st; I2 := I2 st; read1 := read1 st;
     indexR1 := indexR1 st; indexR2 := indexR2 st; read2 := read2 st; index1
     := index1 st; index2 := index2 st; end_ := end_ st; flag := flag st; N_
     := N_ st; IH := v; QS := QS st; reads := reads st; indices := indices
     st; files := files st |}.
Definition set_QS (v : Z) (st : state) : state :=
  {| R1 := R1 st; R2 := R2 st; I1 := I1 st; I2 := I2 st; read1 := read1 st;
     indexR1 := indexR1 st; indexR2 := indexR2 st; read2 := read2 st; index1
     := index1 st; index2 := index2 st; end_ := end_ st; flag := flag st; N_
     := N_ st; IH := IH st; QS := v; reads := reads st; indices := indices
     st; files := files st |}.
Definition set_reads (v : Z) (st : state) : state :=
  {| R1 := R1 st; R2 := R2 st; I1 := I1 st; I2 := I2 st; read1 := read1 st;
     indexR1 := indexR1 st; indexR2 := indexR2 st; read2 := read2 st; index1
     := index1 st; index2 := index2 st; end_ := end_ st; flag := flag st; N_
     := N_ st; IH := IH st; QS := QS st; reads := v; indices := indices st;
     files := files st |}.
Definition set_indices (v : gmap string Z) (st : state) : state :=
  {| R1 := R1 st; R2 := R2 st; I1 := I1 st; I2 := I2 st; read1 := read1 st;
     indexR1 := indexR1 st; indexR2 := indexR2 st; read2 := read2 st; index1
     := index1 st; index2 := index2 st; end_ := end_ st; flag := flag st; N_
     := N_ st; IH := IH st; QS := QS st; reads := reads st; indices := v;
     files := files st |}.
Definition set_files (v : gmap string string) (st : state) : state :=
  {| R1 := R1 st; R2 := R2 st; I1 := I1 st; I2 := I2 st; read1 := read1 st;
     indexR1 := indexR1 st; indexR2 := indexR2 st; read2 := read2 st; index1
     := index1 st; index2 := index2 st; end_ := end_ st; flag := flag st; N_
     := N_ st; IH := IH st; QS := QS st; reads := reads st; indices :=
     indices st; files := v |}.

(** ** Reading lines *)

(** [gzip.open(path, "r")]: mode ["r"] of [gzip.open] is binary. *)
Definition gzip_open (content : list string) : stream :=
  MkStream Binary content.

(** A line as a stream of the given mode returns it. *)
Definition as_read (m : mode) (raw : string) : pyval :=
  match m with
  | Binary => Bytes raw
  | Text => Str raw
  end.

(** [file.readline()]: the next line, or the empty value once the stream
    is exhausted (and it stays exhausted). *)
Definition readline (file : stream) : pyval * stream :=
  (as_read (opened file) (hd EmptyString (lines file)),
   MkStream (opened file) (tl (lines file))).

Definition readInLine (file : stream) : pyval * stream :=
  let '(line, file) := readline file in
  (Py.strip_val line, file).

(** A variable that may still be unbound. *)
Definition var (v : option string) : result string :=
  match v with
  | Some s => Ok s
  | None => Raise NameError
  end.

(** ** Writing records *)

Definition nl : string := String "010"%char EmptyString.

(** [open(outputFile, "a")] followed by the eight [out.write] calls. *)
Definition write_record (outputFile : string) (read : list (option pyval))
    (fs : gmap string string) : result (gmap string string) :=
  let out := default EmptyString (fs !! outputFile) in
  l0 <- getitem read 0%nat;;
  l0 <- Py.text l0;;
  let out := out +:+ l0 in
  let out := out +:+ nl in
  l1 <- getitem read 1%nat;;
  l1 <- Py.text l1;;
  let out := out +:+ l1 in
  let out := out +:+ nl in
  l2 <- getitem read 2%nat;;
  l2 <- Py.text l2;;
  let out := out +:+ l2 in
  let out := out +:+ nl in
  l3 <- getitem read 3%nat;;
  l3 <- Py.text l3;;
  let out := out +:+ l3 in
  let out := out +:+ nl in
  Ok (<[outputFile := out]> fs).

Definition writeToGoodFile (outputFile : string)
    (read : list (option pyval)) (fs : gmap string string)
  : result (gmap string string) :=
  write_record outputFile read fs.

(** [if (reason & bit): read[2] = read[2] + " " + tag] *)
Definition tag_if (reason bit : Z) (tag : string)
    (read : list (option pyval)) : result (list (option pyval)) :=
  if Z.land reason bit =? 0 then Ok read
  else
    sep <- getitem read 2%nat;;
    sep <- Py.add sep (Str " ");;
    sep <- Py.add sep (Str tag);;
    Py.list_setitem read 2 sep.

(** [writeToBadFile] changes the list it is given: the changed list is
    returned with the file system. *)
Definition writeToBadFile (outputFile : string)
    (read : list (option pyval)) (reason : Z) (fs : gmap string string)
  : result (list (option pyval) * gmap string string) :=
  let N := 1 in
  let IH := 2 in
  let QS := 4 in
  let E := 8 in
  read <- tag_if reason N "(N)" read;;
  read <- tag_if reason IH "(IH)" read;;
  read <- tag_if reason QS "(QS)" read;;
  read <- tag_if reason E "(E)" read;;
  fs <- write_record outputFile read fs;;
  Ok (read, fs).

(** ** The main program *)

Definition fastqLines : nat := 4.

Definition indices_init : gmap string Z :=
  list_to_map
    [("GTAGCGTA", 0); ("CGATCGAT", 0); ("GATCAAGG", 0); ("AACAGCGA", 0);
     ("TAGCCATG", 0); ("CGGTAATC", 0); ("CTCTGGAT", 0); ("TACCGGAT", 0);
     ("CTAGCTCA", 0); ("CACTTCAC", 0); ("GCTACTCT", 0); ("ACGATCAG", 0);
     ("TATGGCAC", 0); ("TGTTCCGT", 0); ("GTCCTAAG", 0); ("TCGACAAG", 0);
     ("TCTTCGAC", 0); ("ATCATGCG", 0); ("ATCGTGGT", 0); ("TCGAGAGT", 0);
     ("TCGGATTC", 0); ("GATCTTGC", 0); ("AGAGTCCA", 0); ("AGGATAGC", 0);
     ("SNP", 0)].

(** The known-barcode vocabulary: the keys of the table apart from the
    sentinel ["SNP"]. *)
Definition known_barcodes : list string :=
  ["GTAGCGTA"; "CGATCGAT"; "GATCAAGG"; "AACAGCGA";
   "TAGCCATG"; "CGGTAATC"; "CTCTGGAT"; "TACCGGAT";
   "CTAGCTCA"; "CACTTCAC"; "GCTACTCT"; "ACGATCAG";
   "TATGGCAC"; "TGTTCCGT"; "GTCCTAAG"; "TCGACAAG";
   "TCTTCGAC"; "ATCATGCG"; "ATCGTGGT"; "TCGAGAGT";
   "TCGGATTC"; "GATCTTGC"; "AGAGTCCA"; "AGGATAGC"].

Definition outputFiles : string :=
  "/projects/bgmp/maddyg/Bi624/demultiplexing/outputFiles/".

(** ['.../outputFiles/%s_R1.fastq' % index1] and its R2 twin *)
Definition good_R1 (index1 : string) : string :=
  outputFiles +:+ index1 +:+ "_R1.fastq".
Definition good_R2 (index1 : string) : string :=
  outputFiles +:+ index1 +:+ "_R2.fastq".
Definition rejects_R1 : string := outputFiles +:+ "rejects_R1.fastq".
Definition rejects_R2 : string := outputFiles +:+ "rejects_R2.fastq".

(** The state when the while loop is entered; the arguments are the
    contents of the four input files. *)
Definition init (r1 r2 i1 i2 : list string) (fs : gmap string string)
  : state :=
  {| R1 := gzip_open r1; R2 := gzip_open r2;
     I1 := gzip_open i1; I2 := gzip_open i2;
     read1 := replicate 4 None; indexR1 := replicate 4 None;
     indexR2 := replicate 4 None; read2 := replicate 4 None;
     index1 := None; index2 := None;
     end_ := false; flag := 0; N_ := 0; IH := 0; QS := 0; reads := 0;
     indices := indices_init; files := fs |}.

(** One turn of [for x in range(fastqLines)]; the boolean tells whether
    the turn ended in [break].  [index1] and [index2] are bound to values
    that have just been added to a [str], so they are [str] themselves. *)
Definition read_step (x : nat) (st : state) : result (state * bool) :=
  let '(line, file) := readInLine (R1 st) in
  let st := set_R1 file st in
  a <- Py.list_setitem (read1 st) x line;;
  let st := set_read1 a st in
  line <- getitem (read1 st) x;;
  if Py.eq line (Str EmptyString) then Ok (set_end_ true st, true)
  else
    let '(line, file) := readInLine (I1 st) in
    let st := set_I1 file st in
    a <- Py.list_setitem (indexR1 st) x line;;
    let st := set_indexR1 a st in
    let '(line, file) := readInLine (I2 st) in
    let st := set_I2 file st in
    a <- Py.list_setitem (indexR2 st) x line;;
    let st := set_indexR2 a st in
    let '(line, file) := readInLine (R2 st) in
    let st := set_R2 file st in
    a <- Py.list_setitem (read2 st) x line;;
    let st := set_read2 a st in
    if (x =? 2)%nat then
      sep <- getitem (read1 st) 2%nat;;
      sep <- Py.add sep (Str " ");;
      seq1 <- getitem (indexR1 st) 1%nat;;
      sep <- Py.add sep seq1;;
      a <- Py.list_setitem (read1 st) 2 sep;;
      let st := set_read1 a st in
      seq1 <- getitem (indexR1 st) 1%nat;;
      seq1 <- Py.text seq1;;
      let st := set_index1 (Some seq1) st in
      sep <- getitem (read2 st) 2%nat;;
      sep <- Py.add sep (Str " ");;
      seq2 <- getitem (indexR2 st) 1%nat;;
      sep <- Py.add sep seq2;;
      a <- Py.list_setitem (read2 st) 2 sep;;
      let st := set_read2 a st in
      seq2 <- getitem (indexR2 st) 1%nat;;
      seq2 <- Py.text seq2;;
      let st := set_index2 (Some seq2) st in
      Ok (st, false)
    else Ok (st, false).

Fixpoint read_loop (xs : list nat) (st : state) : result state :=
  match xs with
  | [] => Ok st
  | x :: xs =>
      r <- read_step x st;;
      let '(st, broke) := r in
      if broke then Ok st else read_loop xs st
  end.

(** "add errors to bit flag" *)
Definition classify (st : state) : result state :=
  i1 <- var (index1 st);;
  i2 <- var (index2 st);;
  let st :=
    if containsN i1 || containsN i2
    then set_N_ (N_ st + 1) (set_flag (flag st + 1) st)
    else st in
  let st :=
    if negb (Matcher.matching i1 i2)
    then set_IH (IH st + 1) (set_flag (flag st + 2) st)
    else st in
  ok1 <- compareMeans i1;;
  low <- (if negb ok1 then Ok true
          else (ok2 <- compareMeans i2;; Ok (negb ok2)));;
  let st :=
    if low : bool
    then set_QS (QS st + 1) (set_flag (flag st + 4) st)
    else st in
  Ok st.

(** "if no error and index is valid, write file to valid location, else
    write file to rejects location" *)
Definition route (st : state) : result state :=
  i1 <- var (index1 st);;
  if flag st =? 0 then
    match indices st !! i1 with
    | Some count =>
        let st := set_indices (<[i1 := count + 1]> (indices st)) st in
        fs <- writeToGoodFile (good_R1 i1) (read1 st) (files st);;
        let st := set_files fs st in
        fs <- writeToGoodFile (good_R2 i1) (read2 st) (files st);;
        Ok (set_files fs st)
    | None =>
        let st := set_flag (flag st + 8) st in
        snp <- (match indices st !! "SNP" with
               | Some count => Ok count
               | None => Raise KeyError
               end);;
        let st := set_indices (<["SNP" := snp + 1]> (indices st)) st in
        w <- writeToBadFile rejects_R1 (read1 st) (flag st) (files st);;
        let '(rd, fs) := w in
        let st := set_files fs (set_read1 rd st) in
        w <- writeToBadFile rejects_R2 (read1 st) (flag st) (files st);;
        let '(rd, fs) := w in
        Ok (set_files fs (set_read1 rd st))
    end
  else
    w <- writeToBadFile rejects_R1 (read1 st) (flag st) (files st);;
    let '(rd, fs) := w in
    let st := set_files fs (set_read1 rd st) in
    w <- writeToBadFile rejects_R2 (read2 st) (flag st) (files st);;
    let '(rd, fs) := w in
    Ok (set_files fs (set_read2 rd st)).

(** The body of [while end == False]. *)
Definition loop_body (st : state) : result state :=
  let st := set_flag 0 st in
  st <- read_loop (seq 0 fastqLines) st;;
  if end_ st then Ok st
  else
    let st := set_reads (reads st + 1) st in
    st <- classify st;;
    route st.

(** The loop runs on fuel; [None] means the fuel ran out, which it never
    does in [main] (lemma [main_raises]). *)
Fixpoint while_loop (fuel : nat) (st : state) : option (result state) :=
  match fuel with
  | O => None
  | S fuel =>
      if end_ st then Some (Ok st)
      else
        match loop_body st with
        | Raise e => Some (Raise e)
        | Ok st => if end_ st then Some (Ok st) else while_loop fuel st
        end
  end.

Definition main (r1 r2 i1 i2 : list string) (fs : gmap string string)
  : option (result state) :=
  while_loop (S (length r1)) (init r1 r2 i1 i2 fs).

(** ** Vocabulary of the statements *)

(** Sequences over the alphabet A, C, G, T, N. *)
Fixpoint over_acgtn (s : string) : bool :=
  match s with
  | EmptyString => true
  | String x rest =>
      (Matcher.is_base x || Ascii.eqb x "N") && over_acgtn rest
  end.

(** The four arrays keep their four slots. *)
Definition wf (st : state) : Prop :=
  length (read1 st) = 4%nat ∧ length (indexR1 st) = 4%nat ∧
  length (indexR2 st) = 4%nat ∧ length (read2 st) = 4%nat.

(** The four streams yield [str] lines, as streams opened in a text mode
    do. *)
Definition text_streams (st : state) : Prop :=
  opened (R1 st) = Text ∧ opened (R2 st) = Text ∧
  opened (I1 st) = Text ∧ opened (I2 st) = Text.

(** A stream of the given lines opened in a text mode. *)
Definition text_open (content : list string) : stream :=
  MkStream Text content.

(** The state of [init] with the four streams opened in a text mode
    instead. *)
Definition init_text (r1 r2 i1 i2 : list string) (fs : gmap string string)
  : state :=
  set_I2 (text_open i2)
    (set_I1 (text_open i1)
       (set_R2 (text_open r2)
          (set_R1 (text_open r1) (init r1 r2 i1 i2 fs)))).

(** The white space of the [strip] of the lines of a stream. *)
Definition space_of (m : mode) : ascii → bool :=
  match m with
  | Binary => Py.is_space_bytes
  | Text => Py.is_space_str
  end.

(** The characters of what [readInLine] returns on its [k]-th next call
    on [file], and the value itself. *)
Definition line (k : nat) (file : stream) : string :=
  Py.strip (space_of (opened file)) (nth k (lines file) EmptyString).

Definition item (k : nat) (file : stream) : pyval :=
  as_read (opened file) (line k file).

(** The stream after [k] calls of [readline]. *)
Definition advance (k : nat) (file : stream) : stream :=
  MkStream (opened file) (drop k (lines file)).

(** The text of a record in a FASTQ file. *)
Definition record_text (l0 l1 l2 l3 : string) : string :=
  l0 +:+ nl +:+ l1 +:+ nl +:+ l2 +:+ nl +:+ l3 +:+ nl.

(** The next record of a stream with its four lines as they are read. *)
Definition verbatim_record (file : stream) : string :=
  record_text (line 0 file) (line 1 file) (line 2 file) (line 3 file).

(** The next record of a stream, its separator line followed by a space
    and an annotation. *)
Definition annotated_record (file : stream) (note : string) : string :=
  record_text (line 0 file) (line 1 file)
    (line 2 file +:+ " " +:+ note) (line 3 file).

(** Appending text to a file, creating it when it does not exist. *)
Definition append_file (path text : string) (fs : gmap string string)
  : gmap string string :=
  <[path := default EmptyString (fs !! path) +:+ text]> fs.

(** The reason tags of a flag in the bit order N, IH, QS, E, each after
    a space. *)
Definition tag (reason bit : Z) (name : string) : string :=
  if Z.land reason bit =? 0 then EmptyString else " " +:+ name.

Definition tags (reason : Z) : string :=
  tag reason 1 "(N)" +:+ tag reason 2 "(IH)" +:+
  tag reason 4 "(QS)" +:+ tag reason 8 "(E)".

(** The counters, the barcode table and the files are the same. *)
Definition same_outputs (st st' : state) : Prop :=
  reads st' = reads st ∧ N_ st' = N_ st ∧ IH st' = IH st ∧
  QS st' = QS st ∧ indices st' = indices st ∧ files st' = files st.

(** The streams, the arrays and the variables set by the for loop are
    the same. *)
Definition same_inputs (st st' : state) : Prop :=
  R1 st' = R1 st ∧ R2 st' = R2 st ∧ I1 st' = I1 st ∧ I2 st' = I2 st ∧
  read1 st' = read1 st ∧ indexR1 st' = indexR1 st ∧
  indexR2 st' = indexR2 st ∧ read2 st' = read2 st ∧
  index1 st' = index1 st ∧ index2 st' = index2 st ∧ end_ st' = end_ st.

(** The group was routed to the bucket of [barcode]: the count of the
    barcode went up by one and the pair of files of the barcode received
    one record each. *)
Definition accepted (st st' : state) (barcode : string) : Prop :=
  (∃ count : Z, indices st !! barcode = Some count ∧
                indices st' !! barcode = Some (count + 1)) ∧
  ∃ text1 text2 : string,
    files st' =
      append_file (good_R2 barcode) text2
        (append_file (good_R1 barcode) text1 (files st)).

(** A record of four [str] lines as the arrays hold it. *)
Definition record (l0 l1 l2 l3 : string) : list (option pyval) :=
  [Some (Str l0); Some (Str l1); Some (Str l2); Some (Str l3)].

(** The state after a complete turn of the for loop over the next four
    lines of every stream, when the streams yield [str] lines. *)
Definition group_state (st : state) : state :=
  {| R1 := advance 4 (R1 st); R2 := advance 4 (R2 st);
     I1 := advance 4 (I1 st); I2 := advance 4 (I2 st);
     read1 := record (line 0 (R1 st)) (line 1 (R1 st))
                ((line 2 (R1 st) +:+ " ") +:+ line 1 (I1 st))
                (line 3 (R1 st));
     indexR1 := record (line 0 (I1 st)) (line 1 (I1 st))
                  (line 2 (I1 st)) (line 3 (I1 st));
     indexR2 := record (line 0 (I2 st)) (line 1 (I2 st))
                  (line 2 (I2 st)) (line 3 (I2 st));
     read2 := record (line 0 (R2 st)) (line 1 (R2 st))
                ((line 2 (R2 st) +:+ " ") +:+ line 1 (I2 st))
                (line 3 (R2 st));
     index1 := Some (line 1 (I1 st)); index2 := Some (line 1 (I2 st));
     end_ := end_ st; flag := flag st; N_ := N_ st; IH := IH st;
     QS := QS st; reads := reads st; indices := indices st;
     files := files st |}.

(** The [str] in slot [i] of an array (empty when there is none). *)
Definition cell (l : list (option pyval)) (i : nat) : string :=
  match l !! i with
  | Some (Some (Str s)) => s
  | _ => EmptyString
  end.

(** The state after the four [readInLine] calls of turn [x] of the for
    loop: a line of every stream has gone into slot [x] of its array. *)
Definition fetch (x : nat) (st : state) : state :=
  set_read2 (<[x := Some (item 0 (R2 st))]> (read2 st))
    (set_R2 (advance 1 (R2 st))
       (set_indexR2 (<[x := Some (item 0 (I2 st))]> (indexR2 st))
          (set_I2 (advance 1 (I2 st))
             (set_indexR1 (<[x := Some (item 0 (I1 st))]> (indexR1 st))
                (set_I1 (advance 1 (I1 st))
                   (set_read1 (<[x := Some (item 0 (R1 st))]> (read1 st))
                      (set_R1 (advance 1 (R1 st)) st))))))).

(** The state after the [if x == 2] block, on [str] lines. *)
Definition annotate (st : state) : state :=
  set_index2 (Some (cell (indexR2 st) 1))
    (set_read2
       (<[2%nat := Some (Str ((cell (read2 st) 2 +:+ " ")
                               +:+ cell (indexR2 st) 1))]> (read2 st))
       (set_index1 (Some (cell (indexR1 st) 1))
          (set_read1
             (<[2%nat := Some (Str ((cell (read1 st) 2 +:+ " ")
                                     +:+ cell (indexR1 st) 1))]> (read1 st))
             st))).

(** The state after a turn that ends in [break]. *)
Definition break_at (x : nat) (st : state) : state :=
  set_end_ true
    (set_read1 (<[x := Some (item 0 (R1 st))]> (read1 st))
       (set_R1 (advance 1 (R1 st)) st)).

(** The sum of the Phred scores of a quality string. *)
Fixpoint phred_sum (quality : string) : Z :=
  match quality with
  | EmptyString => 0
  | String base rest => convertPhred base + phred_sum rest
  end.

(** Every file of [fs] is still there in [fs'], with its text as a
    prefix of the new text. *)
Definition extends (fs fs' : gmap string string) : Prop :=
  ∀ path old, fs !! path = Some old →
    ∃ suffix, fs' !! path = Some (old +:+ suffix).

(** A group as the classifier and the router find it: the four arrays
    filled, [index1] and [index2] bound, nothing flagged yet. *)
Definition bound (rd1 x1 x2 rd2 : list (option pyval)) (i1 i2 : string)
    (fs : gmap string string) : state :=
  {| R1 := gzip_open []; R2 := gzip_open [];
     I1 := gzip_open []; I2 := gzip_open [];
     read1 := rd1; indexR1 := x1; indexR2 := x2; read2 := rd2;
     index1 := Some i1; index2 := Some i2;
     end_ := false; flag := 0; N_ := 0; IH := 0; QS := 0; reads := 1;
     indices := indices_init; files := fs |}.

(** ** Sample inputs *)

Module Sample.

Definition text (s : string) : string := s +:+ nl.

Definition primary1 : list string :=
  [text "@read1"; text "ACGTACGT"; text "+"; text "IIIIIIII"].
Definition primary2 : list string :=
  [text "@read2"; text "TTGCAAGC"; text "+"; text "IIIIIIII"].

(** A known barcode and its reverse complement, with the lowest quality
    characters. *)
Definition known1 : list string :=
  [text "@index1"; text "GTAGCGTA"; text "+"; text "!!!!!!!!"].
Definition known2 : list string :=
  [text "@index2"; text "TACGCTAC"; text "+"; text "!!!!!!!!"].

(** A group in the arrays: the two primary records, their separator
    lines extended by the index sequences [i1] and [i2], and the two index
    records with the quality strings [q1] and [q2]. *)
Definition group (i1 i2 : string) (q1 q2 : string) : state :=
  bound (record "@read1" "ACGTACGT" ("+ " +:+ i1) "IIIIIIII")
        (record "@index1" i1 "+" q1) (record "@index2" i2 "+" q2)
        (record "@read2" "TTGCAAGC" ("+ " +:+ i2) "IIIIIIII")
        i1 i2 ∅.

End Sample.

(** * Properties *)

(** ** Strings *)

Section StringFacts.

Implicit Types s t u : string.

Lemma app_cons (x : ascii) s t : String x s +:+ t = String x (s +:+ t).
Proof. reflexivity. Qed.

Lemma app_nil_l s : EmptyString +:+ s = s.
Proof. reflexivity. Qed.

Lemma app_nil_r s : s +:+ EmptyString = s.
Proof. induction s as [|x s IHs]; [done|]. by rewrite app_cons, IHs. Qed.

Lemma app_assoc s t u : (s +:+ t) +:+ u = s +:+ t +:+ u.
Proof.
  induction s as [|x s IHs]; [done|]. by rewrite !app_cons, IHs.
Qed.

Lemma contains_app (c : ascii) s t :
  Py.contains c (s +:+ t) = Py.contains c s || Py.contains c t.
Proof.
  induction s as [|x s IHs]; [done|].
  rewrite app_cons. simpl. by destruct (Ascii.eqb x c).
Qed.

End StringFacts.

(** ** The index matcher *)

Section MatcherFacts.

Import Matcher.

Lemma inverse_loop_spec (index2 inverse : string) :
  inverse_loop index2 inverse = reverse_complement index2 +:+ inverse.
Proof.
  revert inverse; induction index2 as [|x rest IHrest]; intros inverse.
  - done.
  - simpl. by rewrite IHrest, app_assoc.
Qed.

Lemma inverse_is_reverse_complement (index2 : string) :
  inverse_loop index2 EmptyString = reverse_complement index2.
Proof. by rewrite inverse_loop_spec, app_nil_r. Qed.

Lemma reverse_complement_app (s t : string) :
  reverse_complement (s +:+ t)
  = reverse_complement t +:+ reverse_complement s.
Proof.
  induction s as [|x s IHs].
  - by rewrite app_nil_l, app_nil_r.
  - rewrite app_cons. simpl. by rewrite IHs, app_assoc.
Qed.

Lemma is_base_cases (x : ascii) :
  is_base x = true → x = "A"%char ∨ x = "C"%char ∨ x = "G"%char ∨ x = "T"%char.
Proof.
  unfold is_base. rewrite !orb_true_iff, !Ascii.eqb_eq. tauto.
Qed.

Lemma complement_involutive (x : ascii) :
  is_base x = true → complement (complement x) = x.
Proof. intros Hx. by destruct (is_base_cases x Hx) as [->|[->|[->| ->]]]. Qed.

Lemma complement_base_not_N (x : ascii) :
  is_base x = true → Ascii.eqb (complement x) "N" = false.
Proof. intros Hx. by destruct (is_base_cases x Hx) as [->|[->|[->| ->]]]. Qed.

Lemma base_not_N (x : ascii) : is_base x = true → Ascii.eqb x "N" = false.
Proof. intros Hx. by destruct (is_base_cases x Hx) as [->|[->|[->| ->]]]. Qed.

Lemma over_acgt_no_N (a : string) : over_acgt a = true → containsN a = false.
Proof.
  induction a as [|x a IHa]; [done|]. simpl.
  intros [Hx Ha]%andb_true_iff. unfold containsN in *. simpl.
  by rewrite (base_not_N x Hx), IHa.
Qed.

Lemma reverse_complement_no_N (a : string) :
  over_acgt a = true → containsN (reverse_complement a) = false.
Proof.
  induction a as [|x a IHa]; [done|]. simpl.
  intros [Hx Ha]%andb_true_iff. unfold containsN in *.
  rewrite contains_app, IHa by done. simpl.
  by rewrite (complement_base_not_N x Hx).
Qed.

Lemma reverse_complement_involutive (a : string) :
  over_acgt a = true → reverse_complement (reverse_complement a) = a.
Proof.
  induction a as [|x a IHa]; [done|]. simpl.
  intros [Hx Ha]%andb_true_iff.
  rewrite reverse_complement_app, IHa by done. simpl.
  by rewrite (complement_involutive x Hx).
Qed.

(** C6: in the matcher the arm guarded by [containsN(index1) and
    containsN(index2)] is never executed, whatever the two sequences
    are. *)
Theorem C6_trim_both_unreachable (index1 index2 : string) :
  trim_select index1 index2 ≠ TrimBoth.
Proof.
  unfold trim_select.
  destruct (containsN index1), (containsN index2); discriminate.
Qed.

Lemma matching_unfold (index1 index2 : string) :
  matching index1 index2 = matching_spec index1 index2.
Proof.
  unfold matching, matching_spec, trim_select.
  rewrite inverse_is_reverse_complement.
  by destruct (containsN index1), (containsN index2).
Qed.

(** C7: the matcher returns true exactly when the reverse complement of
    index-2, with the first base of both strings dropped if index-1
    contains an N and otherwise the last base of both dropped if index-2
    contains an N, equals index-1. *)
Theorem C7_matching_refines_spec (index1 index2 : string) :
  matching index1 index2 = matching_spec index1 index2.
Proof. apply matching_unfold. Qed.

(** C8: for every sequence [a] over A, C, G, T the matcher accepts [a]
    against its reverse complement. *)
Theorem C8_matching_reverse_complement (a : string) :
  over_acgt a = true → matching a (reverse_complement a) = true.
Proof.
  intros Ha. rewrite matching_unfold. unfold matching_spec.
  rewrite (over_acgt_no_N a Ha), (reverse_complement_no_N a Ha).
  rewrite (reverse_complement_involutive a Ha). apply String.eqb_refl.
Qed.

Lemma C8_witness :
  over_acgt "GTAGCGTA" = true ∧
  matching "GTAGCGTA" (reverse_complement "GTAGCGTA") = true.
Proof.
  split; [reflexivity|].
  apply (C8_matching_reverse_complement "GTAGCGTA"). reflexivity.
Defined.

End MatcherFacts.

(** ** The quality scorer *)

Section QualityFacts.

Lemma meanQS_loop_spec (quality : string) (total bp : Z) :
  meanQS_loop quality total bp
  = (total + phred_sum quality, bp + Z.of_nat (Py.len quality)).
Proof.
  revert total bp; induction quality as [|base rest IHrest]; intros total bp.
  - simpl. f_equal; lia.
  - cbn [meanQS_loop phred_sum Py.len String.length]. rewrite IHrest.
    unfold Py.len. f_equal; lia.
Qed.

(** On a record whose quality string is not empty, the scorer returns the
    sum of the scores divided by their number. *)
Lemma meanQS_record (read : list (option pyval)) (quality : string) :
  getitem read 3%nat = Ok (Str quality) → quality ≠ EmptyString →
  meanQS read
  = Ok (Qmake (phred_sum quality) (Pos.of_nat (Py.len quality))).
Proof.
  intros Hq Hne. unfold meanQS. rewrite Hq. cbn [bind meanQS_for].
  rewrite meanQS_loop_spec. unfold Py.div.
  destruct quality as [|base rest]; [done|].
  destruct (Z.eqb_spec (0 + Z.of_nat (Py.len (String base rest))) 0) as [Hz|Hz];
    [unfold Py.len in Hz; simpl in Hz; lia|].
  do 2 f_equal. unfold Py.len. simpl String.length.
  rewrite Z.add_0_l. change (Z.of_nat (S ?n)) with (Z.pos (Pos.of_succ_nat n)).
  by rewrite Pos.of_nat_succ.
Qed.

(** On a string, [read[3]] is its fourth character: the scorer returns the
    score of that one character. *)
Lemma meanQS_string (index : string) (c : ascii) :
  getitem index 3%nat = Ok (Str (String c EmptyString)) →
  meanQS index = Ok (inject_Z (convertPhred c)).
Proof. intros Hc. unfold meanQS. by rewrite Hc. Qed.

(** Comparing the exact quotient with the cutoff and comparing the floor
    quotient with it give the same answer. *)
Lemma floor_mean_cutoff (total bp : Z) :
  0 < bp →
  Qle_bool (inject_Z cutoffQS) (Qmake total (Z.to_pos bp))
  = (cutoffQS <=? total / bp).
Proof.
  intros Hbp. unfold Qle_bool, inject_Z. simpl Qnum. simpl Qden.
  rewrite Z2Pos.id by done. rewrite Z.mul_1_r.
  apply eq_iff_eq_true. rewrite !Z.leb_le. split; intros H.
  - apply Z.div_le_lower_bound; lia.
  - pose proof (Z.mul_div_le total bp Hbp). nia.
Qed.

Lemma str_getitem_length (s : string) (i : nat) :
  (i < Py.len s)%nat → ∃ c, Py.str_getitem s i = Ok (String c EmptyString).
Proof.
  revert i; induction s as [|x s IHs]; intros i Hi; simpl in *; [lia|].
  destruct i as [|i]; [by eexists|]. apply IHs. unfold Py.len in *. lia.
Qed.

Lemma str_getitem_over_acgtn (s : string) (i : nat) (c : ascii) :
  over_acgtn s = true → Py.str_getitem s i = Ok (String c EmptyString) →
  Matcher.is_base c || Ascii.eqb c "N" = true.
Proof.
  revert i; induction s as [|x s IHs]; intros i Hs Hc; simpl in *; [done|].
  apply andb_true_iff in Hs as [Hx Hs].
  destruct i as [|i]; [by simplify_eq|]. by eapply IHs.
Qed.

(** Subscripting a [str] gives a [str]. *)
Lemma getitem_str (s : string) (i : nat) (c : string) :
  Py.str_getitem s i = Ok c → getitem s i = Ok (Str c).
Proof. intros Hc. unfold getitem, subscript_str. by rewrite Hc. Qed.

Lemma getitem_str_raise (s : string) (i : nat) (e : exn) :
  Py.str_getitem s i = Raise e → getitem s i = Raise e.
Proof. intros Hc. unfold getitem, subscript_str. by rewrite Hc. Qed.

Lemma acgtn_meets_cutoff (c : ascii) :
  Matcher.is_base c || Ascii.eqb c "N" = true → cutoffQS ≤ convertPhred c.
Proof.
  intros [Hc| ->%Ascii.eqb_eq]%orb_true_iff; [|by vm_compute].
  by destruct (is_base_cases c Hc) as [->|[->|[->| ->]]]; vm_compute.
Qed.

Lemma compareMeans_string (index : string) (c : ascii) :
  getitem index 3%nat = Ok (Str (String c EmptyString)) →
  compareMeans index = Ok (cutoffQS <=? convertPhred c).
Proof.
  intros Hc. unfold compareMeans. rewrite (meanQS_string index c Hc). simpl.
  unfold Qle_bool, inject_Z. simpl. by rewrite !Z.mul_1_r.
Qed.

(** C5 (as amended): applied to a record whose quality string is empty,
    meanQS has no guard: its loop leaves [total] and [bp] at zero and the
    result is that of dividing zero by zero, ZeroDivisionError. *)
Theorem C5_empty_quality_divides_by_zero (read : list (option pyval)) :
  getitem read 3%nat = Ok (Str EmptyString) →
  meanQS_loop EmptyString 0 0 = (0, 0) ∧
  meanQS read = Py.div 0 0 ∧
  meanQS read = Raise ZeroDivisionError.
Proof. intros Hq. unfold meanQS. by rewrite Hq. Qed.

Lemma C5_witness :
  getitem (record "@read" "ACGT" "+" "") 3%nat = Ok (Str EmptyString) ∧
  meanQS_loop EmptyString 0 0 = (0, 0) ∧
  meanQS (record "@read" "ACGT" "+" "") = Py.div 0 0 ∧
  meanQS (record "@read" "ACGT" "+" "") = Raise ZeroDivisionError.
Proof.
  split; [reflexivity|].
  apply (C5_empty_quality_divides_by_zero (record "@read" "ACGT" "+" "")).
  reflexivity.
Defined.

(** C5 (as stated) fails: on a record with an empty quality string the
    error that ends meanQS is the one raised by the division itself. *)
Lemma C5_counterexample :
  getitem (record "@read" "ACGT" "+" "") 3%nat = Ok (Str EmptyString) ∧
  meanQS (record "@read" "ACGT" "+" "") = Raise ZeroDivisionError.
Proof. split; reflexivity. Qed.

End QualityFacts.

(** ** Reading a group of records *)

Section ReadFacts.

Lemma bind_Ok {A B : Type} (m : result A) (k : A → result B) (b : B) :
  bind m k = Ok b → ∃ a, m = Ok a ∧ k a = Ok b.
Proof. destruct m as [a|e]; simpl; [eauto|discriminate]. Qed.

Lemma nth_0_hd (file : list string) :
  nth 0 file EmptyString = hd EmptyString file.
Proof. by destruct file. Qed.

Lemma drop_S_tl (k : nat) (file : list string) :
  drop (S k) file = drop k (tl file).
Proof. destruct file; [by destruct k|done]. Qed.

Lemma readInLine_spec (file : stream) :
  readInLine file = (item 0 file, advance 1 file).
Proof.
  destruct file as [m content].
  unfold readInLine, readline, item, line, advance. cbn [opened lines].
  rewrite nth_0_hd, drop_S_tl, drop_0. by destruct m.
Qed.

Lemma item_text (k : nat) (file : stream) :
  opened file = Text → item k file = Str (line k file).
Proof. intros Hm. unfold item. by rewrite Hm. Qed.

Lemma item_binary (k : nat) (file : stream) :
  opened file = Binary → item k file = Bytes (line k file).
Proof. intros Hm. unfold item. by rewrite Hm. Qed.

Lemma list_setitem_Ok (l : list (option pyval)) (i : nat) (v : pyval) :
  (i < length l)%nat → Py.list_setitem l i v = Ok (<[i := Some v]> l).
Proof. intros Hi%Nat.ltb_lt. unfold Py.list_setitem. by rewrite Hi. Qed.

Lemma list_setitem_length (l l' : list (option pyval)) (i : nat)
    (v : pyval) :
  Py.list_setitem l i v = Ok l' → length l' = length l.
Proof.
  unfold Py.list_setitem. destruct (i <? length l)%nat; [|discriminate].
  intros [= <-]. apply length_insert.
Qed.

Lemma line_advance (j k : nat) (file : stream) :
  line j (advance k file) = line (k + j) file.
Proof. unfold line, advance. cbn [opened lines]. f_equal. apply nth_skipn. Qed.

Lemma advance_advance (j k : nat) (file : stream) :
  advance j (advance k file) = advance (k + j) file.
Proof. unfold advance. cbn [opened lines]. by rewrite drop_drop. Qed.

Lemma list_getitem_insert (l : list (option pyval)) (i : nat) (v : pyval) :
  (i < length l)%nat → Py.list_getitem (<[i := Some v]> l) i = Ok v.
Proof.
  intros Hi. unfold Py.list_getitem. by rewrite list_lookup_insert_eq.
Qed.

Lemma list_getitem_insert_ne (l : list (option pyval)) (i j : nat)
    (v : pyval) :
  i ≠ j → Py.list_getitem (<[i := Some v]> l) j = Py.list_getitem l j.
Proof.
  intros Hij. unfold Py.list_getitem. by rewrite list_lookup_insert_ne.
Qed.

Lemma list_getitem_cell (l : list (option pyval)) (i : nat) (v : string) :
  l !! i = Some (Some (Str v)) → Py.list_getitem l i = Ok (Str (cell l i)).
Proof. intros Hl. unfold Py.list_getitem, cell. by rewrite Hl. Qed.

Lemma cell_insert (l : list (option pyval)) (i : nat) (v : string) :
  (i < length l)%nat → cell (<[i := Some (Str v)]> l) i = v.
Proof. intros Hi. unfold cell. by rewrite list_lookup_insert_eq. Qed.

(** Projections of updated states. *)
Ltac fields :=
  cbn [R1 R2 I1 I2 read1 indexR1 indexR2 read2 index1 index2 end_ flag N_
       IH QS reads indices files
       set_R1 set_R2 set_I1 set_I2 set_read1 set_indexR1 set_indexR2
       set_read2 set_index1 set_index2 set_end_ set_flag set_N_ set_IH
       set_QS set_reads set_indices set_files].

(** Running the reads and the array updates of a turn. *)
Ltac run_turn :=
  repeat first
    [ progress fields
    | rewrite readInLine_spec
    | rewrite list_setitem_Ok by (rewrite ?length_insert; lia)
    | progress cbn [bind]
    | progress unfold getitem, subscript_list
    | rewrite list_getitem_insert by (rewrite ?length_insert; lia) ].

(** A turn that reads an empty [str] from the first stream. *)
Lemma read_step_break (x : nat) (st : state) :
  (x < length (read1 st))%nat →
  Py.eq (item 0 (R1 st)) (Str EmptyString) = true →
  read_step x st = Ok (break_at x st, true).
Proof.
  intros Hx Hline. unfold read_step. run_turn.
  rewrite Hline. reflexivity.
Qed.

(** A turn other than the third whose line from the first stream is not
    the empty [str]. *)
Lemma read_step_fetch (x : nat) (st : state) :
  wf st → (x < 4)%nat → x ≠ 2%nat →
  Py.eq (item 0 (R1 st)) (Str EmptyString) = false →
  read_step x st = Ok (fetch x st, false).
Proof.
  intros (H1 & H2 & H3 & H4) Hx Hx2%Nat.eqb_neq Hline.
  unfold read_step. run_turn. rewrite Hline. run_turn. rewrite Hx2.
  reflexivity.
Qed.

(** The third turn on [str] lines: the index sequences read at the
    second turn are appended to the separator lines. *)
Lemma read_step_annotate (st : state) (seq1 seq2 : string) :
  wf st → Py.eq (item 0 (R1 st)) (Str EmptyString) = false →
  opened (R1 st) = Text → opened (R2 st) = Text →
  indexR1 st !! 1%nat = Some (Some (Str seq1)) →
  indexR2 st !! 1%nat = Some (Some (Str seq2)) →
  read_step 2 st = Ok (annotate (fetch 2 st), false).
Proof.
  intros (H1 & H2 & H3 & H4) Hline Hm1 Hm2 Hseq1 Hseq2.
  unfold read_step. run_turn. rewrite Hline. run_turn.
  cbn [Nat.eqb].
  rewrite !list_getitem_insert_ne by lia.
  rewrite (list_getitem_cell _ _ _ Hseq1), (list_getitem_cell _ _ _ Hseq2).
  rewrite (item_text 0 (R1 st) Hm1), (item_text 0 (R2 st) Hm2).
  cbn [Py.add bind Py.text]. run_turn. cbn [Py.add bind Py.text]. run_turn.
  unfold annotate, fetch. fields.
  rewrite (item_text 0 (R1 st) Hm1), (item_text 0 (R2 st) Hm2).
  rewrite !cell_insert by lia.
  unfold cell. rewrite !list_lookup_insert_ne by lia. rewrite Hseq1, Hseq2.
  reflexivity.
Qed.

(** The third turn on a binary first stream: the separator line is a
    [bytes], and adding [" "] to it raises TypeError. *)
Lemma read_step_binary (st : state) :
  wf st → opened (R1 st) = Binary → read_step 2 st = Raise TypeError.
Proof.
  intros (H1 & H2 & H3 & H4) Hm.
  unfold read_step. run_turn.
  rewrite (item_binary 0 (R1 st) Hm). cbn [Py.eq]. run_turn.
  cbn [Nat.eqb]. run_turn. reflexivity.
Qed.

Lemma binary_never_empty (file : stream) :
  opened file = Binary → Py.eq (item 0 file) (Str EmptyString) = false.
Proof. intros Hm. by rewrite item_binary. Qed.

Lemma text_empty (file : stream) :
  opened file = Text →
  Py.eq (item 0 file) (Str EmptyString) = String.eqb (line 0 file) EmptyString.
Proof. intros Hm. by rewrite item_text. Qed.

Lemma wf_fetch (x : nat) (st : state) : wf st → wf (fetch x st).
Proof.
  intros (H1 & H2 & H3 & H4). unfold wf, fetch. fields.
  by rewrite !length_insert.
Qed.

Lemma wf_annotate (st : state) : wf st → wf (annotate st).
Proof.
  intros (H1 & H2 & H3 & H4). unfold wf, annotate. fields.
  by rewrite !length_insert.
Qed.

Lemma R1_fetch (x : nat) (st : state) : R1 (fetch x st) = advance 1 (R1 st).
Proof. reflexivity. Qed.

Lemma R1_annotate (st : state) : R1 (annotate st) = R1 st.
Proof. reflexivity. Qed.

Lemma indexR1_fetch (x : nat) (st : state) :
  wf st → (x < 4)%nat →
  indexR1 (fetch x st) !! x = Some (Some (item 0 (I1 st))).
Proof.
  intros (H1 & H2 & H3 & H4) Hx. unfold fetch. fields.
  apply list_lookup_insert_eq. lia.
Qed.

Lemma indexR2_fetch (x : nat) (st : state) :
  wf st → (x < 4)%nat →
  indexR2 (fetch x st) !! x = Some (Some (item 0 (I2 st))).
Proof.
  intros (H1 & H2 & H3 & H4) Hx. unfold fetch. fields.
  apply list_lookup_insert_eq. lia.
Qed.

(** On a binary first stream the for loop never meets its end test and
    raises TypeError in its third turn, whatever the streams hold. *)
Lemma read_loop_binary (st : state) :
  wf st → opened (R1 st) = Binary →
  read_loop (seq 0 fastqLines) st = Raise TypeError.
Proof.
  intros Hwf Hm. unfold fastqLines. cbn [seq read_loop].
  rewrite read_step_fetch by (auto using binary_never_empty with lia).
  cbn [bind].
  pose proof (wf_fetch 0 st Hwf) as Hwf0.
  rewrite read_step_fetch by (auto using binary_never_empty with lia).
  cbn [bind].
  pose proof (wf_fetch 1 _ Hwf0) as Hwf1.
  rewrite read_step_binary by done. reflexivity.
Qed.


Lemma text_line (k : nat) (st : state) :
  text_streams st →
  Py.eq (item 0 (advance k (R1 st))) (Str EmptyString)
  = String.eqb (line k (R1 st)) EmptyString.
Proof.
  intros (Hm & _). rewrite text_empty by exact Hm.
  rewrite line_advance. by rewrite Nat.add_0_r.
Qed.

Lemma line_not_empty (k : nat) (st : state) :
  text_streams st → line k (R1 st) ≠ EmptyString →
  Py.eq (item 0 (advance k (R1 st))) (Str EmptyString) = false.
Proof. intros Ht Hne. rewrite text_line by done. by apply String.eqb_neq. Qed.

Lemma line_empty (k : nat) (st : state) :
  text_streams st → line k (R1 st) = EmptyString →
  Py.eq (item 0 (advance k (R1 st))) (Str EmptyString) = true.
Proof. intros Ht He. rewrite text_line by done. by apply String.eqb_eq. Qed.

Lemma advance_0 (file : stream) : advance 0 file = file.
Proof. by destruct file. Qed.

(** The first stream after the turns of the for loop. *)
Lemma R1_fetch_1 (st : state) :
  R1 (fetch 0 st) = advance 1 (R1 st).
Proof. reflexivity. Qed.

Lemma R1_fetch_2 (st : state) :
  R1 (fetch 1 (fetch 0 st)) = advance 2 (R1 st).
Proof. rewrite !R1_fetch. apply advance_advance. Qed.

Lemma R1_fetch_3 (st : state) :
  R1 (annotate (fetch 2 (fetch 1 (fetch 0 st)))) = advance 3 (R1 st).
Proof. rewrite R1_annotate, !R1_fetch, !advance_advance. reflexivity. Qed.

Lemma third_turn (st : state) :
  wf st → text_streams st → line 2 (R1 st) ≠ EmptyString →
  read_step 2 (fetch 1 (fetch 0 st))
  = Ok (annotate (fetch 2 (fetch 1 (fetch 0 st))), false).
Proof.
  intros Hwf Ht Hline.
  pose proof (wf_fetch 0 st Hwf) as Hwf0.
  pose proof (wf_fetch 1 _ Hwf0) as Hwf1.
  destruct Ht as (Hm1 & Hm2 & Hm3 & Hm4).
  apply (read_step_annotate _ (line 0 (I1 (fetch 0 st)))
           (line 0 (I2 (fetch 0 st)))); try done.
  - rewrite R1_fetch_2. by apply line_not_empty.
  - rewrite indexR1_fetch by (done || lia). by rewrite item_text.
  - rewrite indexR2_fetch by (done || lia). by rewrite item_text.
Qed.

(** The state after four complete turns. *)
Lemma read_loop_complete_fetch (st : state) :
  wf st → text_streams st →
  (∀ k, (k < 4)%nat → line k (R1 st) ≠ EmptyString) →
  read_loop (seq 0 fastqLines) st
  = Ok (fetch 3 (annotate (fetch 2 (fetch 1 (fetch 0 st))))).
Proof.
  intros Hwf Ht Hlines. unfold fastqLines. cbn [seq read_loop].
  pose proof (wf_fetch 0 st Hwf) as Hwf0.
  pose proof (wf_fetch 1 _ Hwf0) as Hwf1.
  pose proof (wf_annotate _ (wf_fetch 2 _ Hwf1)) as Hwf2.
  rewrite read_step_fetch;
    [|done|lia|lia
     |rewrite <- (advance_0 (R1 st)); apply line_not_empty; auto with lia].
  cbn [bind].
  rewrite read_step_fetch;
    [|done|lia|lia
     |rewrite R1_fetch_1; apply line_not_empty; auto with lia].
  cbn [bind].
  rewrite third_turn by auto with lia. cbn [bind].
  rewrite read_step_fetch;
    [|done|lia|lia
     |rewrite R1_fetch_3; apply line_not_empty; auto with lia].
  reflexivity.
Qed.

Lemma fetched_is_group_state (st : state) :
  wf st → text_streams st →
  fetch 3 (annotate (fetch 2 (fetch 1 (fetch 0 st)))) = group_state st.
Proof.
  intros (H1 & H2 & H3 & H4) (Hm1 & Hm2 & Hm3 & Hm4).
  destruct st as [[m1 r1] [m2 r2] [m3 i1] [m4 i2] a1 b1 b2 a2 x1 x2 e f n ih
                    qs rd ix fs].
  cbn [read1 indexR1 indexR2 read2 R1 R2 I1 I2 opened] in *. subst.
  destruct a1 as [|? [|? [|? [|? [|]]]]]; try discriminate.
  destruct a2 as [|? [|? [|? [|? [|]]]]]; try discriminate.
  destruct b1 as [|? [|? [|? [|? [|]]]]]; try discriminate.
  destruct b2 as [|? [|? [|? [|? [|]]]]]; try discriminate.
  clear.
  lazy -[drop line String.append].
  rewrite !drop_drop.
  change (MkStream Text (drop 1 r1)) with (advance 1 (MkStream Text r1)).
  change (MkStream Text (drop 1 r2)) with (advance 1 (MkStream Text r2)).
  change (MkStream Text (drop 1 i1)) with (advance 1 (MkStream Text i1)).
  change (MkStream Text (drop 1 i2)) with (advance 1 (MkStream Text i2)).
  change (MkStream Text (drop (1 + 1) r1)) with (advance 2 (MkStream Text r1)).
  change (MkStream Text (drop (1 + 1) r2)) with (advance 2 (MkStream Text r2)).
  change (MkStream Text (drop (1 + 1) i1)) with (advance 2 (MkStream Text i1)).
  change (MkStream Text (drop (1 + 1) i2)) with (advance 2 (MkStream Text i2)).
  change (MkStream Text (drop (1 + 1 + 1) r1))
    with (advance 3 (MkStream Text r1)).
  change (MkStream Text (drop (1 + 1 + 1) r2))
    with (advance 3 (MkStream Text r2)).
  change (MkStream Text (drop (1 + 1 + 1) i1))
    with (advance 3 (MkStream Text i1)).
  change (MkStream Text (drop (1 + 1 + 1) i2))
    with (advance 3 (MkStream Text i2)).
  rewrite !line_advance. reflexivity.
Qed.

Lemma read_loop_complete (st : state) :
  wf st → text_streams st →
  (∀ k, (k < 4)%nat → line k (R1 st) ≠ EmptyString) →
  read_loop (seq 0 fastqLines) st = Ok (group_state st).
Proof.
  intros Hwf Ht Hlines.
  by rewrite read_loop_complete_fetch, fetched_is_group_state.
Qed.

(** On [str] lines the for loop either completes its four turns or meets
    an empty line in the first stream; then it sets [end] and leaves the
    counters, the table and the files alone. *)
Lemma read_loop_cases (st : state) :
  wf st → text_streams st →
  (read_loop (seq 0 fastqLines) st = Ok (group_state st) ∧
   ∀ k, (k < 4)%nat → line k (R1 st) ≠ EmptyString)
  ∨
  (∃ st', read_loop (seq 0 fastqLines) st = Ok st' ∧
          end_ st' = true ∧ same_outputs st st' ∧
          ∃ k, (k < 4)%nat ∧ line k (R1 st) = EmptyString).
Proof.
  intros Hwf Ht.
  pose proof (wf_fetch 0 st Hwf) as Hwf0.
  pose proof (wf_fetch 1 _ Hwf0) as Hwf1.
  pose proof (wf_annotate _ (wf_fetch 2 _ Hwf1)) as Hwf2.
  destruct (decide (line 0 (R1 st) = EmptyString)) as [E0|E0].
  { right. exists (break_at 0 st). split; [|split; [reflexivity|split;
      [repeat split; reflexivity|exists 0%nat; split; [lia|done]]]].
    unfold fastqLines. cbn [seq read_loop].
    rewrite read_step_break;
      [done|destruct Hwf as (-> & _); lia
      |rewrite <- (advance_0 (R1 st)); by apply line_empty]. }
  assert (read_step 0 st = Ok (fetch 0 st, false)) as S0.
  { apply read_step_fetch; [done|lia|lia|].
    rewrite <- (advance_0 (R1 st)). by apply line_not_empty. }
  destruct (decide (line 1 (R1 st) = EmptyString)) as [E1|E1].
  { right. exists (break_at 1 (fetch 0 st)).
    split; [|split; [reflexivity|split;
      [repeat split; reflexivity|exists 1%nat; split; [lia|done]]]].
    unfold fastqLines. cbn [seq read_loop]. rewrite S0. cbn [bind].
    rewrite read_step_break;
      [done|destruct Hwf0 as (-> & _); lia
      |rewrite R1_fetch_1; by apply line_empty]. }
  assert (read_step 1 (fetch 0 st) = Ok (fetch 1 (fetch 0 st), false)) as S1.
  { apply read_step_fetch; [done|lia|lia|].
    rewrite R1_fetch_1. by apply line_not_empty. }
  destruct (decide (line 2 (R1 st) = EmptyString)) as [E2|E2].
  { right. exists (break_at 2 (fetch 1 (fetch 0 st))).
    split; [|split; [reflexivity|split;
      [repeat split; reflexivity|exists 2%nat; split; [lia|done]]]].
    unfold fastqLines. cbn [seq read_loop]. rewrite S0. cbn [bind].
    rewrite S1. cbn [bind].
    rewrite read_step_break;
      [done|destruct Hwf1 as (-> & _); lia
      |rewrite R1_fetch_2; by apply line_empty]. }
  destruct (decide (line 3 (R1 st) = EmptyString)) as [E3|E3].
  { right. exists (break_at 3 (annotate (fetch 2 (fetch 1 (fetch 0 st))))).
    split; [|split; [reflexivity|split;
      [repeat split; reflexivity|exists 3%nat; split; [lia|done]]]].
    unfold fastqLines. cbn [seq read_loop]. rewrite S0. cbn [bind].
    rewrite S1. cbn [bind]. rewrite third_turn by done. cbn [bind].
    rewrite read_step_break;
      [done|destruct Hwf2 as (-> & _); lia
      |rewrite R1_fetch_3; by apply line_empty]. }
  left. split.
  - apply read_loop_complete; [done|done|].
    intros k Hk. by destruct k as [|[|[|[|k]]]]; [..|lia].
  - intros k Hk. by destruct k as [|[|[|[|k]]]]; [..|lia].
Qed.

End ReadFacts.

(** ** Writing records *)

Section WriteFacts.

Lemma write_record_full (path : string) (l0 l1 l2 l3 : string)
    (fs : gmap string string) :
  write_record path (record l0 l1 l2 l3) fs
  = Ok (append_file path (record_text l0 l1 l2 l3) fs).
Proof.
  unfold write_record, append_file, record_text.
  change (getitem (record l0 l1 l2 l3) 0%nat) with (Ok (Str l0)).
  change (getitem (record l0 l1 l2 l3) 1%nat) with (Ok (Str l1)).
  change (getitem (record l0 l1 l2 l3) 2%nat) with (Ok (Str l2)).
  change (getitem (record l0 l1 l2 l3) 3%nat) with (Ok (Str l3)).
  cbn [bind Py.text]. by rewrite !app_assoc.
Qed.

Lemma write_record_Ok (path : string) (read : list (option pyval))
    (fs fs' : gmap string string) :
  write_record path read fs = Ok fs' →
  ∃ text, fs' = append_file path text fs.
Proof.
  unfold write_record. intros H.
  apply bind_Ok in H as (v0 & _ & H). apply bind_Ok in H as (l0 & _ & H).
  apply bind_Ok in H as (v1 & _ & H). apply bind_Ok in H as (l1 & _ & H).
  apply bind_Ok in H as (v2 & _ & H). apply bind_Ok in H as (l2 & _ & H).
  apply bind_Ok in H as (v3 & _ & H). apply bind_Ok in H as (l3 & _ & H).
  injection H as <-. eexists. unfold append_file.
  rewrite !app_assoc. reflexivity.
Qed.

Lemma tag_if_full (reason bit : Z) (name l0 l1 l2 l3 : string) :
  tag_if reason bit name (record l0 l1 l2 l3)
  = Ok (record l0 l1 (l2 +:+ tag reason bit name) l3).
Proof.
  unfold tag_if, tag. destruct (Z.land reason bit =? 0).
  - by rewrite app_nil_r.
  - change (getitem (record l0 l1 l2 l3) 2%nat) with (Ok (Str l2)).
    cbn [bind Py.add]. unfold record. by rewrite app_assoc.
Qed.

Lemma tag_if_length (reason bit : Z) (name : string)
    (read read' : list (option pyval)) :
  tag_if reason bit name read = Ok read' → length read' = length read.
Proof.
  unfold tag_if. destruct (Z.land reason bit =? 0); [by intros [= <-]|].
  intros H. apply bind_Ok in H as (v & _ & H).
  apply bind_Ok in H as (w & _ & H). apply bind_Ok in H as (sep & _ & H).
  by apply list_setitem_length in H.
Qed.

(** The reject writer puts the tags of the flag, in the order N, IH, QS,
    E, behind the separator line, in the list it was given and in the
    file. *)
Lemma writeToBadFile_full (path : string) (l0 l1 l2 l3 : string)
    (reason : Z) (fs : gmap string string) :
  writeToBadFile path (record l0 l1 l2 l3) reason fs
  = Ok (record l0 l1 (l2 +:+ tags reason) l3,
        append_file path (record_text l0 l1 (l2 +:+ tags reason) l3) fs).
Proof.
  unfold writeToBadFile. rewrite tag_if_full. cbn [bind].
  rewrite tag_if_full. cbn [bind]. rewrite tag_if_full. cbn [bind].
  rewrite tag_if_full. cbn [bind]. rewrite write_record_full. cbn [bind].
  unfold tags. by rewrite !app_assoc.
Qed.

Lemma writeToBadFile_Ok (path : string) (read read' : list (option pyval))
    (reason : Z) (fs fs' : gmap string string) :
  writeToBadFile path read reason fs = Ok (read', fs') →
  length read' = length read ∧ ∃ text, fs' = append_file path text fs.
Proof.
  unfold writeToBadFile. intros H.
  apply bind_Ok in H as (r1 & H1%tag_if_length & H).
  apply bind_Ok in H as (r2 & H2%tag_if_length & H).
  apply bind_Ok in H as (r3 & H3%tag_if_length & H).
  apply bind_Ok in H as (r4 & H4%tag_if_length & H).
  apply bind_Ok in H as (fs1 & Hw%write_record_Ok & H).
  injection H as <- <-. split; [congruence|done].
Qed.

End WriteFacts.

(** ** Classifying and routing a group *)

Section RouteFacts.

(** What the three tests of the classifier do to the flag and to the
    counters; [low] is the outcome of the quality test. *)
Lemma classify_Ok (st st' : state) (i1 i2 : string) :
  index1 st = Some i1 → index2 st = Some i2 → classify st = Ok st' →
  ∃ low : bool,
    (if low
     then compareMeans i1 = Ok false ∨
          (compareMeans i1 = Ok true ∧ compareMeans i2 = Ok false)
     else compareMeans i1 = Ok true ∧ compareMeans i2 = Ok true) ∧
    flag st' = flag st + Z.b2z (containsN i1 || containsN i2)
               + 2 * Z.b2z (negb (Matcher.matching i1 i2)) + 4 * Z.b2z low ∧
    N_ st' = N_ st + Z.b2z (containsN i1 || containsN i2) ∧
    IH st' = IH st + Z.b2z (negb (Matcher.matching i1 i2)) ∧
    QS st' = QS st + Z.b2z low ∧
    same_inputs st st' ∧
    reads st' = reads st ∧ indices st' = indices st ∧ files st' = files st.
Proof.
  intros Hi1 Hi2. unfold classify. rewrite Hi1, Hi2. cbn [var bind].
  destruct (compareMeans i1) as [[|]|e1]; cbn [bind negb]; [| |discriminate].
  - destruct (compareMeans i2) as [[|]|e2]; cbn [bind negb]; [| |discriminate];
      intros [= <-]; [exists false|exists true];
      (split; [auto|]);
      destruct (containsN i1 || containsN i2), (Matcher.matching i1 i2);
      cbn [negb Z.b2z]; unfold same_inputs;
      repeat split; try reflexivity; cbn; lia.
  - intros [= <-]. exists true. split; [auto|].
    destruct (containsN i1 || containsN i2), (Matcher.matching i1 i2);
      cbn [negb Z.b2z]; unfold same_inputs;
      repeat split; try reflexivity; cbn; lia.
Qed.

Lemma writeToGoodFile_Ok (path : string) (read : list (option pyval))
    (fs fs' : gmap string string) :
  writeToGoodFile path read fs = Ok fs' →
  ∃ text, fs' = append_file path text fs.
Proof. apply write_record_Ok. Qed.

(** The three ways through the router. *)
Lemma route_Ok (st st' : state) (i1 : string) :
  index1 st = Some i1 → route st = Ok st' →
  (R1 st' = R1 st ∧ index1 st' = index1 st ∧ end_ st' = end_ st ∧
   reads st' = reads st ∧ N_ st' = N_ st ∧ IH st' = IH st ∧
   QS st' = QS st ∧ (wf st → wf st')) ∧
  ((flag st = 0 ∧ flag st' = 0 ∧
    (∃ count, indices st !! i1 = Some count ∧
              indices st' = <[i1 := count + 1]> (indices st)) ∧
    ∃ text1 text2,
      files st' = append_file (good_R2 i1) text2
                    (append_file (good_R1 i1) text1 (files st)))
   ∨ (flag st = 0 ∧ flag st' = 8 ∧ indices st !! i1 = None ∧
      ∃ count, indices st !! "SNP" = Some count ∧
               indices st' = <["SNP" := count + 1]> (indices st))
   ∨ (flag st ≠ 0 ∧ flag st' = flag st ∧ indices st' = indices st)).
Proof.
  intros Hi1. unfold route. rewrite Hi1. cbn [var bind].
  destruct (Z.eqb_spec (flag st) 0) as [Hflag|Hflag].
  - destruct (indices st !! i1) as [count|] eqn:Hcount.
    + intros H.
      apply bind_Ok in H as (fs1 & (t1 & ->)%writeToGoodFile_Ok & H).
      apply bind_Ok in H as (fs2 & (t2 & ->)%writeToGoodFile_Ok & H).
      injection H as <-.
      split; [split_and!; try reflexivity; try exact Hi1; intros Hwf; exact Hwf|].
      left. split; [done|]. split; [done|]. split; [by exists count|].
      by exists t1, t2.
    + intros H.
      apply bind_Ok in H as (snp & Hsnp & H).
      apply bind_Ok in H as ([rd1 fs1] & (Hl1 & _)%writeToBadFile_Ok & H).
      apply bind_Ok in H as ([rd2 fs2] & (Hl2 & _)%writeToBadFile_Ok & H).
      injection H as <-. split.
      { split_and!; try reflexivity; try exact Hi1. intros (H1 & H2 & H3 & H4).
        split_and!; try done. cbn in Hl1, Hl2 |- *. congruence. }
      right. left. split; [done|]. split; [cbn; lia|]. split; [done|].
      exists snp. split; [|done]. cbn in Hsnp.
      by destruct (indices st !! "SNP"); simplify_eq.
  - intros H.
    apply bind_Ok in H as ([rd1 fs1] & (Hl1 & _)%writeToBadFile_Ok & H).
    apply bind_Ok in H as ([rd2 fs2] & (Hl2 & _)%writeToBadFile_Ok & H).
    injection H as <-. split.
    { split_and!; try reflexivity; try exact Hi1. intros (H1 & H2 & H3 & H4).
      split_and!; try done; cbn in Hl1, Hl2 |- *; congruence. }
    right. right. by repeat split.
Qed.

Lemma route_accept (st : state) (i1 : string) (count : Z)
    (a0 a1 a2 a3 b0 b1 b2 b3 : string) :
  index1 st = Some i1 → flag st = 0 → indices st !! i1 = Some count →
  read1 st = record a0 a1 a2 a3 →
  read2 st = record b0 b1 b2 b3 →
  ∃ st', route st = Ok st' ∧
    files st' = append_file (good_R2 i1) (record_text b0 b1 b2 b3)
                  (append_file (good_R1 i1) (record_text a0 a1 a2 a3)
                     (files st)).
Proof.
  intros Hi1 Hflag Hcount Hr1 Hr2. unfold route, writeToGoodFile.
  rewrite Hi1. cbn [var bind]. rewrite Hflag, Hcount. cbn [Z.eqb].
  cbn [read1 read2 files set_indices set_files].
  rewrite Hr1, write_record_full. cbn [bind].
  cbn [read1 read2 files set_indices set_files].
  rewrite Hr2, write_record_full. cbn [bind].
  eexists. split; reflexivity.
Qed.

(** The reject path: both primary records go to the reject files with
    the tags of the flag behind their separator lines. *)
Lemma route_reject (st : state) (i1 : string)
    (a0 a1 a2 a3 b0 b1 b2 b3 : string) :
  index1 st = Some i1 → flag st ≠ 0 →
  read1 st = record a0 a1 a2 a3 →
  read2 st = record b0 b1 b2 b3 →
  ∃ st', route st = Ok st' ∧
    files st' =
      append_file rejects_R2 (record_text b0 b1 (b2 +:+ tags (flag st)) b3)
        (append_file rejects_R1
           (record_text a0 a1 (a2 +:+ tags (flag st)) a3) (files st)).
Proof.
  intros Hi1 Hflag%Z.eqb_neq Hr1 Hr2. unfold route.
  rewrite Hi1. cbn [var bind]. rewrite Hflag.
  rewrite Hr1, writeToBadFile_full. cbn [bind].
  cbn [read1 read2 files flag set_read1 set_files].
  rewrite Hr2, writeToBadFile_full. cbn [bind].
  eexists. split; reflexivity.
Qed.

(** The unknown-barcode path: the second reject file receives the first
    primary record again, tagged a second time. *)
Lemma route_unknown (st : state) (i1 : string) (count : Z)
    (a0 a1 a2 a3 : string) :
  index1 st = Some i1 → flag st = 0 → indices st !! i1 = None →
  indices st !! "SNP" = Some count →
  read1 st = record a0 a1 a2 a3 →
  ∃ st', route st = Ok st' ∧
    files st' =
      append_file rejects_R2
        (record_text a0 a1 ((a2 +:+ tags 8) +:+ tags 8) a3)
        (append_file rejects_R1 (record_text a0 a1 (a2 +:+ tags 8) a3)
           (files st)).
Proof.
  intros Hi1 Hflag Hnone Hsnp Hr1. unfold route.
  rewrite Hi1. cbn [var bind]. rewrite Hflag, Hnone. cbn [Z.eqb].
  cbn [indices flag set_flag]. rewrite Hsnp. cbn [bind].
  cbn [read1 files flag set_indices set_flag]. rewrite ?Hflag.
  rewrite Hr1, writeToBadFile_full. cbn [bind].
  cbn [read1 read2 files flag set_read1 set_files set_indices set_flag].
  rewrite ?Hflag, writeToBadFile_full. cbn [bind].
  eexists. split; reflexivity.
Qed.

End RouteFacts.

(** ** The loop *)

Section LoopFacts.

Lemma wf_set_flag (v : Z) (st : state) : wf st → wf (set_flag v st).
Proof. intros H. exact H. Qed.

Lemma text_streams_set_flag (v : Z) (st : state) :
  text_streams st → text_streams (set_flag v st).
Proof. intros H. exact H. Qed.

(** On [str] lines one turn of the while loop either stops at an empty
    line of the first stream, leaving the counters, the table and the files
    alone, or reads a group, counts it, classifies it and routes it. *)
Lemma loop_body_cases (st : state) :
  wf st → text_streams st →
  (∃ st', loop_body st = Ok st' ∧ end_ st' = true ∧ same_outputs st st' ∧
          ∃ k, (k < 4)%nat ∧ line k (R1 st) = EmptyString)
  ∨
  ((∀ k, (k < 4)%nat → line k (R1 st) ≠ EmptyString) ∧
   read_loop (seq 0 fastqLines) (set_flag 0 st)
   = Ok (group_state (set_flag 0 st)) ∧
   loop_body st
   = if end_ st then Ok (group_state (set_flag 0 st))
     else
       st1 <- classify (set_reads (reads st + 1)
                          (group_state (set_flag 0 st)));;
       route st1).
Proof.
  intros Hwf Ht. unfold loop_body. cbv zeta.
  destruct (read_loop_cases (set_flag 0 st) (wf_set_flag 0 st Hwf)
              (text_streams_set_flag 0 st Ht))
    as [[Hloop Hlines]|(st' & Hloop & Hend & Hsame & Hk)].
  - right. split; [exact Hlines|]. split; [exact Hloop|].
    rewrite Hloop. reflexivity.
  - left. exists st'. rewrite Hloop. cbn [bind]. rewrite Hend.
    split; [reflexivity|]. split; [done|]. split; [exact Hsame|exact Hk].
Qed.

(** On a binary first stream a turn of the while loop raises TypeError. *)
Lemma loop_body_binary (st : state) :
  wf st → opened (R1 st) = Binary → loop_body st = Raise TypeError.
Proof.
  intros Hwf Hm. unfold loop_body. cbv zeta.
  rewrite read_loop_binary; [reflexivity|by apply wf_set_flag|exact Hm].
Qed.

Lemma while_loop_binary (fuel : nat) (st : state) :
  wf st → opened (R1 st) = Binary → end_ st = false →
  while_loop (S fuel) st = Some (Raise TypeError).
Proof.
  intros Hwf Hm Hend. cbn [while_loop].
  by rewrite Hend, loop_body_binary.
Qed.

Lemma wf_init (r1 r2 i1 i2 : list string) (fs : gmap string string) :
  wf (init r1 r2 i1 i2 fs).
Proof. by repeat split. Qed.

Lemma main_raises (r1 r2 i1 i2 : list string) (fs : gmap string string) :
  main r1 r2 i1 i2 fs = Some (Raise TypeError).
Proof.
  unfold main. apply while_loop_binary; [apply wf_init|reflexivity..].
Qed.

End LoopFacts.

(** ** Routing of accepted groups and the end of the input *)

(** Running the loop body on a given state: the run succeeds, and what
    it leaves is read off by evaluation. *)
Ltac run_body Hbody st' :=
  destruct (loop_body _) as [st'|?] eqn:Hbody;
  [|exfalso; apply (f_equal (on_ok (λ _ : state, tt))) in Hbody;
    vm_compute in Hbody; discriminate].

Ltac observe Hbody f H :=
  match type of Hbody with
  | ?run = Ok _ =>
      eassert (on_ok f run = Some _) as H by (vm_compute; reflexivity);
      rewrite Hbody in H; cbn [on_ok] in H; injection H as H
  end.

Section OutputFacts.

Lemma annotated_record_eq (file : stream) (note : string) :
  record_text (line 0 file) (line 1 file)
    ((line 2 file +:+ " ") +:+ note) (line 3 file)
  = annotated_record file note.
Proof. unfold annotated_record. by rewrite app_assoc. Qed.

(** C3 (as amended): for every accepted group read from streams of [str]
    lines, the two primary records are appended to the pair of files
    named after index-1, with their header, sequence and quality lines as
    read and with the separator line followed by a space and the index
    sequence of the record's own index stream. *)
Theorem C3_accepted_records_annotated (st st' : state) :
  wf st → text_streams st →
  loop_body st = Ok st' → end_ st' = false → flag st' = 0 →
  index1 st' = Some (line 1 (I1 st)) ∧
  files st'
  = append_file (good_R2 (line 1 (I1 st)))
      (annotated_record (R2 st) (line 1 (I2 st)))
      (append_file (good_R1 (line 1 (I1 st)))
         (annotated_record (R1 st) (line 1 (I1 st))) (files st)).
Proof.
  intros Hwf Ht Hbody Hend Hflag.
  destruct (loop_body_cases st Hwf Ht)
    as [(st0 & Hst0 & Hend0 & _)|(Hlines & _ & Heq)].
  { rewrite Hbody in Hst0. injection Hst0 as <-. congruence. }
  rewrite Hbody in Heq. symmetry in Heq.
  destruct (end_ st) eqn:Hend_st.
  { injection Heq as <-. cbn in Hend. congruence. }
  apply bind_Ok in Heq as (st1 & Hclass & Hroute).
  eapply classify_Ok in Hclass
    as (low & _ & Hflag1 & _ & _ & _ & Hin & _ & Hindices & Hfiles);
    [|reflexivity..].
  destruct Hin as (_ & _ & _ & _ & Hr1 & _ & _ & Hr2 & Hi1 & _).
  cbn [index1 read1 read2 R1 R2 I1 I2 group_state set_reads set_flag]
    in Hi1, Hr1, Hr2.
  cbn [files flag group_state set_reads set_flag] in Hfiles, Hflag1.
  destruct (route_Ok st1 st' _ Hi1 Hroute)
    as ((_ & Hi1' & _) & [(Hf1 & _ & (count & Hcount & _) & _)
                         |[(_ & Hf8 & _)|(Hne & Hsame & _)]]);
    [|lia..].
  destruct (route_accept st1 _ count _ _ _ _ _ _ _ _ Hi1 Hf1 Hcount Hr1 Hr2)
    as (st'' & Hroute'' & Hfiles'').
  rewrite Hroute in Hroute''. injection Hroute'' as <-.
  split; [by rewrite Hi1'|].
  by rewrite Hfiles'', Hfiles, !annotated_record_eq.
Qed.

Lemma C3_witness :
  let st := init_text Sample.primary1 Sample.primary2 Sample.known1
              Sample.known2 ∅ in
  ∃ st', (wf st ∧ text_streams st ∧
          loop_body st = Ok st' ∧ end_ st' = false ∧ flag st' = 0) ∧
    index1 st' = Some (line 1 (I1 st)) ∧
    files st'
    = append_file (good_R2 (line 1 (I1 st)))
        (annotated_record (R2 st) (line 1 (I2 st)))
        (append_file (good_R1 (line 1 (I1 st)))
           (annotated_record (R1 st) (line 1 (I1 st))) (files st)).
Proof.
  intros st. run_body Hbody st'. exists st'.
  observe Hbody end_ Hend. observe Hbody flag Hflag.
  assert (wf st) as Hwf by (repeat split; reflexivity).
  assert (text_streams st) as Ht by (repeat split; reflexivity).
  split; [by repeat split|].
  exact (C3_accepted_records_annotated st st' Hwf Ht Hbody Hend Hflag).
Defined.

(** C3 (as stated) fails: the record appended for an accepted group is
    not the record as it was read, because its separator line has been
    extended with the index sequence. *)
Lemma C3_counterexample :
  ∃ st',
    loop_body (init_text Sample.primary1 Sample.primary2 Sample.known1
                 Sample.known2 ∅) = Ok st' ∧
    end_ st' = false ∧ flag st' = 0 ∧ index1 st' = Some "GTAGCGTA" ∧
    files st' !! good_R1 "GTAGCGTA"
    = Some (record_text "@read1" "ACGTACGT" "+ GTAGCGTA" "IIIIIIII") ∧
    files st' !! good_R1 "GTAGCGTA"
    ≠ Some (verbatim_record (text_open Sample.primary1)).
Proof.
  run_body Hbody st'. exists st'.
  observe Hbody end_ Hend. observe Hbody flag Hflag.
  observe Hbody index1 Hindex.
  observe Hbody (λ s, files s !! good_R1 "GTAGCGTA") Hfile.
  split; [reflexivity|]. split; [exact Hend|]. split; [exact Hflag|].
  split; [exact Hindex|].
  rewrite Hfile. split; [vm_compute; reflexivity|].
  intros Heq. vm_compute in Heq. discriminate.
Qed.

End OutputFacts.

(** ** The end of the input *)

Section EndFacts.

(** C4 (as amended): on streams of [str] lines the loop stops as soon as
    one of the next four lines of the primary-read-1 stream is empty, as
    it is at the end of that stream: nothing more is counted or written.
    The other three streams are not tested: when the next four lines of
    primary-read-1 are not empty, the for loop completes the group from
    whatever the other streams yield and the group is passed on to the
    classifier and the router. *)
Theorem C4_stops_at_end_of_read1 (st : state) :
  wf st → text_streams st → end_ st = false →
  ((∃ k, (k < 4)%nat ∧ line k (R1 st) = EmptyString) →
   ∀ fuel, ∃ st', while_loop (S fuel) st = Some (Ok st') ∧
                  end_ st' = true ∧ same_outputs st st') ∧
  ((∀ k, (k < 4)%nat → line k (R1 st) ≠ EmptyString) →
   read_loop (seq 0 fastqLines) (set_flag 0 st)
   = Ok (group_state (set_flag 0 st)) ∧
   end_ (group_state (set_flag 0 st)) = false ∧
   loop_body st
   = (st1 <- classify (set_reads (reads st + 1)
                         (group_state (set_flag 0 st)));;
      route st1)).
Proof.
  intros Hwf Ht Hend. split.
  - intros (k & Hk & Hempty) fuel.
    destruct (loop_body_cases st Hwf Ht)
      as [(st' & Hbody & Hend' & Hsame & _)|[Hlines _]];
      [|by destruct (Hlines k Hk)].
    exists st'. cbn [while_loop]. by rewrite Hend, Hbody, Hend'.
  - intros Hlines.
    destruct (loop_body_cases st Hwf Ht)
      as [(_ & _ & _ & _ & k & Hk & Hempty)|(_ & Hloop & Heq)];
      [by destruct (Hlines k Hk)|].
    rewrite Hend in Heq. split; [exact Hloop|]. split; [exact Hend|exact Heq].
Qed.

Lemma C4_witness :
  let st := init_text [] Sample.primary2 Sample.known1 Sample.known2 ∅ in
  (wf st ∧ text_streams st ∧ end_ st = false) ∧
  (∃ k, (k < 4)%nat ∧ line k (R1 st) = EmptyString) ∧
  ∃ st', while_loop 1 st = Some (Ok st') ∧
         end_ st' = true ∧ same_outputs st st'.
Proof.
  intros st.
  assert (wf st) as Hwf by (repeat split; reflexivity).
  assert (text_streams st) as Ht by (repeat split; reflexivity).
  assert (end_ st = false) as Hend by reflexivity.
  assert (∃ k, (k < 4)%nat ∧ line k (R1 st) = EmptyString) as Hempty
    by (exists 0%nat; split; [lia|reflexivity]).
  split; [by repeat split|]. split; [exact Hempty|].
  exact (proj1 (C4_stops_at_end_of_read1 st Hwf Ht Hend) Hempty 0%nat).
Defined.

(** C4 (as stated) fails.  With the primary-read-2 stream at its end from
    the start and one record in each of the other streams, a group is
    still processed, counted and written when the streams yield [str]
    lines; and on the streams the program opens the run does not stop
    silently: it ends with TypeError. *)
Lemma C4_counterexample :
  (∃ st,
     while_loop 2 (init_text Sample.primary1 [] Sample.known1
                     Sample.known2 ∅) = Some (Ok st) ∧
     reads st = 1 ∧
     files st !! good_R1 "GTAGCGTA"
     = Some (record_text "@read1" "ACGTACGT" "+ GTAGCGTA" "IIIIIIII") ∧
     files st !! good_R2 "GTAGCGTA"
     = Some (record_text "" "" " TACGCTAC" "")) ∧
  main Sample.primary1 [] Sample.known1 Sample.known2 ∅
  = Some (Raise TypeError).
Proof.
  split; [|apply main_raises].
  destruct (while_loop _ _) as [[st|?]|] eqn:Hrun;
    [|exfalso; apply (f_equal (from_option (on_ok (λ _ : state, tt)) None))
                 in Hrun; vm_compute in Hrun; discriminate..].
  exists st. split; [reflexivity|].
  assert (∀ {B} (f : state → B) (v : B),
            from_option (on_ok f) None
              (while_loop 2 (init_text Sample.primary1 [] Sample.known1
                               Sample.known2 ∅)) = Some v → f st = v) as Hobs.
  { intros B f v. rewrite Hrun. cbn [from_option on_ok]. by intros [= <-]. }
  split; [apply Hobs; vm_compute; reflexivity|].
  split; apply (Hobs _ (λ s, files s !! _)); vm_compute; reflexivity.
Qed.

End EndFacts.

(** ** The classification *)

Section ClassFacts.

Lemma known_or_sentinel (k : string) :
  k ∈ dom indices_init ↔ k ∈ known_barcodes ∨ k = "SNP".
Proof.
  unfold indices_init. rewrite dom_list_to_map_L, elem_of_list_to_set.
  change (k ∈ known_barcodes ++ ["SNP"] ↔ k ∈ known_barcodes ∨ k = "SNP").
  rewrite elem_of_app, list_elem_of_singleton. done.
Qed.

Lemma testbit_3_small (f : Z) : 0 ≤ f < 8 → Z.testbit f 3 = false.
Proof.
  intros Hf.
  assert (f = 0 ∨ f = 1 ∨ f = 2 ∨ f = 3 ∨ f = 4 ∨ f = 5 ∨ f = 6 ∨ f = 7)
    as Hcases by lia.
  by destruct Hcases as [->|[->|[->|[->|[->|[->|[->| ->]]]]]]].
Qed.

Lemma b2z_range (b : bool) : 0 ≤ Z.b2z b ≤ 1.
Proof. destruct b; simpl; lia. Qed.

(** C9: the unknown-barcode bit is set exactly when the first three
    reasons are absent and index-1 is not a known barcode; the group goes
    to the bucket of its barcode exactly when its reason set is empty
    and its barcode is known. *)
Theorem C9_unknown_barcode_and_acceptance
    (st st1 st2 : state) (i1 i2 : string) :
  flag st = 0 → index1 st = Some i1 → index2 st = Some i2 →
  dom (indices st) = dom indices_init →
  classify st = Ok st1 → route st1 = Ok st2 →
  (Z.testbit (flag st2) 3 = true ↔ flag st1 = 0 ∧ i1 ∉ known_barcodes) ∧
  (accepted st1 st2 i1 ↔ flag st2 = 0 ∧ i1 ∈ known_barcodes) ∧
  (accepted st1 st2 i1 ↔ flag st1 = 0 ∧ i1 ∈ known_barcodes).
Proof.
  intros Hflag Hi1 Hi2 Hdom Hclass Hroute.
  destruct (classify_Ok st st1 i1 i2 Hi1 Hi2 Hclass)
    as (low & _ & Hflag1 & _ & _ & _ & Hin & _ & Hindices & _).
  destruct Hin as (_ & _ & _ & _ & _ & _ & _ & _ & Hi1' & _).
  rewrite Hi1 in Hi1'. rewrite Hflag in Hflag1.
  pose proof (b2z_range (containsN i1 || containsN i2)) as HbN.
  pose proof (b2z_range (negb (Matcher.matching i1 i2))) as HbM.
  pose proof (b2z_range low) as HbL.
  assert (flag st1 = 0 → i1 ≠ "SNP") as Hsnp.
  { intros H0 ->. rewrite H0 in Hflag1. change (containsN "SNP") with true in *.
    cbn [orb Z.b2z] in *. lia. }
  assert (∀ k, is_Some (indices st1 !! k) ↔ k ∈ known_barcodes ∨ k = "SNP")
    as Hkeys.
  { intros k. by rewrite Hindices, <- elem_of_dom, Hdom, known_or_sentinel. }
  destruct (route_Ok st1 st2 i1 Hi1' Hroute)
    as (_ & [(Hf1 & Hf2 & (count & Hcount & Hind2) & texts)
            |[(Hf1 & Hf2 & Hnone & _)|(Hf1 & Hf2 & Hind2)]]).
  - assert (i1 ∈ known_barcodes) as Hknown.
    { destruct (proj1 (Hkeys i1)) as [?|?]; [by eexists|done|].
      by destruct (Hsnp Hf1). }
    assert (accepted st1 st2 i1) as Hacc.
    { split; [|exact texts]. exists count. split; [done|].
      by rewrite Hind2, lookup_insert_eq. }
    rewrite Hf2. split; [|split]; split; try done.
    by intros [_ ?].
  - assert (i1 ∉ known_barcodes) as Hunknown.
    { intros Hk. assert (is_Some (indices st1 !! i1)) as [? ?]
        by (apply Hkeys; by left). congruence. }
    assert (¬ accepted st1 st2 i1) as Hrej.
    { intros [(count & Hcount & _) _]. congruence. }
    rewrite Hf2. split; [|split]; split; try done.
    + intros [? _]. lia.
    + by intros [_ ?].
  - assert (¬ accepted st1 st2 i1) as Hrej.
    { intros [(count & Hcount & Hcount') _]. rewrite Hind2 in Hcount'.
      rewrite Hcount in Hcount'. injection Hcount'. lia. }
    rewrite Hf2. split; [|split]; split; try done.
    + rewrite testbit_3_small by lia. done.
    + by intros [? _].
    + by intros [? _].
    + by intros [? _].
Qed.

Lemma C9_witness :
  let st := Sample.group "AAAAAAAA" "TTTTTTTT" "IIIIIIII" "IIIIIIII" in
  ∃ st1 st2,
    (flag st = 0 ∧ index1 st = Some "AAAAAAAA" ∧
     index2 st = Some "TTTTTTTT" ∧ dom (indices st) = dom indices_init ∧
     classify st = Ok st1 ∧ route st1 = Ok st2) ∧
    (Z.testbit (flag st2) 3 = true
     ↔ flag st1 = 0 ∧ "AAAAAAAA" ∉ known_barcodes) ∧
    (accepted st1 st2 "AAAAAAAA"
     ↔ flag st2 = 0 ∧ "AAAAAAAA" ∈ known_barcodes) ∧
    (accepted st1 st2 "AAAAAAAA"
     ↔ flag st1 = 0 ∧ "AAAAAAAA" ∈ known_barcodes).
Proof.
  intros st.
  assert (on_ok (λ _ : state, tt) (st1 <- classify st;; route st1) = Some tt)
    as Hrun by (vm_compute; reflexivity).
  destruct (classify st) as [st1|e1] eqn:Hclass; [|discriminate].
  cbn [bind] in Hrun.
  destruct (route st1) as [st2|e2] eqn:Hroute; [|discriminate].
  exists st1, st2.
  assert (flag st = 0) as Hflag by reflexivity.
  assert (index1 st = Some "AAAAAAAA") as Hi1 by reflexivity.
  assert (index2 st = Some "TTTTTTTT") as Hi2 by reflexivity.
  assert (dom (indices st) = dom indices_init) as Hdom by reflexivity.
  split; [by repeat split|].
  exact (C9_unknown_barcode_and_acceptance st st1 st2 _ _
           Hflag Hi1 Hi2 Hdom Hclass Hroute).
Defined.

Lemma over_acgtn_cutoff (index : string) :
  over_acgtn index = true → (4 ≤ Py.len index)%nat →
  ∃ c, getitem index 3%nat = Ok (Str (String c EmptyString)) ∧
       meanQS index = Ok (inject_Z (convertPhred c)) ∧
       cutoffQS ≤ convertPhred c ∧
       compareMeans index = Ok true.
Proof.
  intros Halpha Hlen.
  destruct (str_getitem_length index 3) as [c Hc]; [lia|].
  pose proof (acgtn_meets_cutoff c (str_getitem_over_acgtn _ _ _ Halpha Hc))
    as Hcut.
  apply getitem_str in Hc.
  exists c. split; [exact Hc|]. split; [by apply meanQS_string|].
  split; [exact Hcut|].
  rewrite (compareMeans_string index c Hc). f_equal. by apply Z.leb_le.
Qed.

(** C10: when both index sequences have at least four characters, all
    among A, C, G, T and N, the quality test reads the character at
    position 3 of each sequence, finds its score at or above the cutoff,
    and the QS reason is not set. *)
Theorem C10_qs_never_set (st : state) (i1 i2 : string) :
  index1 st = Some i1 → index2 st = Some i2 → flag st = 0 →
  over_acgtn i1 = true → over_acgtn i2 = true →
  (4 ≤ Py.len i1)%nat → (4 ≤ Py.len i2)%nat →
  (∃ c1 c2,
     getitem i1 3%nat = Ok (Str (String c1 EmptyString)) ∧
     getitem i2 3%nat = Ok (Str (String c2 EmptyString)) ∧
     meanQS i1 = Ok (inject_Z (convertPhred c1)) ∧
     meanQS i2 = Ok (inject_Z (convertPhred c2)) ∧
     cutoffQS ≤ convertPhred c1 ∧ cutoffQS ≤ convertPhred c2) ∧
  ∃ st', classify st = Ok st' ∧
         Z.testbit (flag st') 2 = false ∧ QS st' = QS st.
Proof.
  intros Hi1 Hi2 Hflag Ha1 Ha2 Hl1 Hl2.
  destruct (over_acgtn_cutoff i1 Ha1 Hl1) as (c1 & Hc1 & Hm1 & Hq1 & Hok1).
  destruct (over_acgtn_cutoff i2 Ha2 Hl2) as (c2 & Hc2 & Hm2 & Hq2 & Hok2).
  split; [by exists c1, c2|].
  destruct (classify st) as [st'|e] eqn:Hclass.
  - exists st'. split; [reflexivity|].
    destruct (classify_Ok st st' i1 i2 Hi1 Hi2 Hclass)
      as (low & Hlow & Hflag' & _ & _ & HQS & _).
    destruct low.
    { destruct Hlow as [?|[_ ?]]; congruence. }
    rewrite Hflag', HQS, Hflag.
    destruct (containsN i1 || containsN i2), (Matcher.matching i1 i2);
      (split; [reflexivity|cbn [Z.b2z]; lia]).
  - exfalso. revert Hclass. unfold classify.
    rewrite Hi1, Hi2. cbn [var bind]. rewrite Hok1. cbn [bind negb].
    rewrite Hok2. cbn [bind]. discriminate.
Qed.

Lemma C10_witness :
  let st := Sample.group "GTAGCGTA" "TACGCTAC" "!!!!!!!!" "!!!!!!!!" in
  (index1 st = Some "GTAGCGTA" ∧ index2 st = Some "TACGCTAC" ∧
   flag st = 0 ∧ over_acgtn "GTAGCGTA" = true ∧
   over_acgtn "TACGCTAC" = true ∧
   (4 ≤ Py.len "GTAGCGTA")%nat ∧ (4 ≤ Py.len "TACGCTAC")%nat) ∧
  ∃ st', classify st = Ok st' ∧
         Z.testbit (flag st') 2 = false ∧ QS st' = QS st.
Proof.
  intros st.
  assert (index1 st = Some "GTAGCGTA") as Hi1 by reflexivity.
  assert (index2 st = Some "TACGCTAC") as Hi2 by reflexivity.
  assert (flag st = 0) as Hflag by reflexivity.
  assert (over_acgtn "GTAGCGTA" = true) as Ha1 by reflexivity.
  assert (over_acgtn "TACGCTAC" = true) as Ha2 by reflexivity.
  assert (4 ≤ Py.len "GTAGCGTA")%nat as Hl1 by (vm_compute; lia).
  assert (4 ≤ Py.len "TACGCTAC")%nat as Hl2 by (vm_compute; lia).
  split; [by repeat split|].
  exact (proj2 (C10_qs_never_set st _ _ Hi1 Hi2 Hflag Ha1 Ha2 Hl1 Hl2)).
Defined.

End ClassFacts.

(** ** The quality test and the reject files *)

(** Classifying and routing a given group: the run succeeds, and what it
    leaves is read off by evaluation. *)
Ltac run_group Hclass Hroute st1 st2 :=
  match goal with
  | |- context [classify ?st] =>
      let Hrun := fresh "Hrun" in
      assert (on_ok (λ _ : state, tt) (st1 <- classify st;; route st1)
              = Some tt) as Hrun by (vm_compute; reflexivity);
      destruct (classify st) as [st1|?] eqn:Hclass; [|discriminate];
      cbn [bind] in Hrun;
      destruct (route st1) as [st2|?] eqn:Hroute; [|discriminate];
      clear Hrun
  end.

Ltac observe_group Hclass Hroute f H :=
  match type of Hclass with
  | classify ?st = Ok _ =>
      eassert (on_ok f (st1 <- classify st;; route st1) = Some _) as H
        by (vm_compute; reflexivity);
      rewrite Hclass in H; cbn [bind] in H; rewrite Hroute in H;
      cbn [on_ok] in H; injection H as H
  end.

Section RejectFacts.

(** C1: with index records whose quality strings have mean Phred score 0,
    below the cutoff, the classifier leaves the QS reason off and does not
    count the group as low quality: the quality test is given the index
    sequences, not the index records. *)
Theorem C1_low_quality_not_flagged :
  let st := Sample.group "GTAGCGTA" "TACGCTAC" "!!!!!!!!" "!!!!!!!!" in
  indexR1 st = record "@index1" "GTAGCGTA" "+" "!!!!!!!!" ∧
  indexR2 st = record "@index2" "TACGCTAC" "+" "!!!!!!!!" ∧
  index1 st = Some "GTAGCGTA" ∧ index2 st = Some "TACGCTAC" ∧
  meanQS (indexR1 st) = Ok (0 # 8)%Q ∧
  meanQS (indexR2 st) = Ok (0 # 8)%Q ∧
  compareMeans (indexR1 st) = Ok false ∧
  compareMeans (indexR2 st) = Ok false ∧
  ∃ st', classify st = Ok st' ∧
         flag st' = 0 ∧ Z.testbit (flag st') 2 = false ∧ QS st' = QS st.
Proof.
  intros st. do 8 (split; [reflexivity|]).
  destruct (classify st) as [st'|e] eqn:Hclass;
    [|exfalso; apply (f_equal (on_ok (λ _ : state, tt))) in Hclass;
      vm_compute in Hclass; discriminate].
  exists st'. split; [reflexivity|].
  destruct (classify_Ok st st' "GTAGCGTA" "TACGCTAC" eq_refl eq_refl Hclass)
    as (low & Hlow & Hflag & _ & _ & HQS & _).
  destruct low.
  { exfalso. destruct Hlow as [H|[_ H]]; vm_compute in H; discriminate. }
  rewrite Hflag, HQS. by vm_compute.
Qed.

(** C2: a group with a matching, N-free index pair that is no known
    barcode leaves the classifier with an empty flag and is rejected by
    the router with flag 8; the first reject file receives the first
    primary record tagged (E), and the second reject file receives the
    first primary record again, tagged twice, instead of the second
    primary record tagged once. *)
Theorem C2_unknown_barcode_second_reject_file :
  let st := Sample.group "AAAAAAAA" "TTTTTTTT" "IIIIIIII" "IIIIIIII" in
  read1 st = record "@read1" "ACGTACGT" "+ AAAAAAAA" "IIIIIIII" ∧
  read2 st = record "@read2" "TTGCAAGC" "+ TTTTTTTT" "IIIIIIII" ∧
  ∃ st1 st2,
    classify st = Ok st1 ∧ flag st1 = 0 ∧
    route st1 = Ok st2 ∧ flag st2 = 8 ∧
    files st2 !! rejects_R1
    = Some (record_text "@read1" "ACGTACGT" "+ AAAAAAAA (E)" "IIIIIIII") ∧
    files st2 !! rejects_R2
    = Some (record_text "@read1" "ACGTACGT" "+ AAAAAAAA (E) (E)" "IIIIIIII") ∧
    files st2 !! rejects_R2
    ≠ Some (record_text "@read2" "TTGCAAGC" "+ TTTTTTTT (E)" "IIIIIIII").
Proof.
  intros st. do 2 (split; [reflexivity|]).
  run_group Hclass Hroute st1 st2. exists st1, st2.
  assert (on_ok flag (classify st) = Some 0) as Hf1
    by (vm_compute; reflexivity).
  rewrite Hclass in Hf1. injection Hf1 as Hf1.
  observe_group Hclass Hroute flag Hf2.
  observe_group Hclass Hroute (λ s, files s !! rejects_R1) Hfile1.
  observe_group Hclass Hroute (λ s, files s !! rejects_R2) Hfile2.
  split; [reflexivity|]. split; [exact Hf1|]. split; [exact Hroute|].
  split; [exact Hf2|]. rewrite Hfile1, Hfile2.
  split; [vm_compute; reflexivity|]. split; [vm_compute; reflexivity|].
  intros Heq. vm_compute in Heq. discriminate.
Qed.

(** The keys of the barcode table never change. *)
Lemma route_dom (st st' : state) (i1 : string) :
  index1 st = Some i1 → route st = Ok st' →
  dom (indices st') = dom (indices st).
Proof.
  intros Hi1 Hroute.
  destruct (route_Ok st st' i1 Hi1 Hroute)
    as (_ & [(_ & _ & (count & Hcount & Hind) & _)
            |[(_ & _ & _ & count & Hcount & Hind)|(_ & _ & Hind)]]);
    rewrite Hind; [| |done]; rewrite dom_insert_L;
    apply (elem_of_dom_2 (D := gset string)) in Hcount;
    apply subseteq_union_1_L, singleton_subseteq_l, Hcount.
Qed.

End RejectFacts.

(** * Further properties *)

(** ** The matcher on reads with an N *)

Section MatcherExtra.

Import Matcher.

Lemma slice_m1_snoc (s : string) (x : ascii) :
  Py.slice_m1 (s +:+ String x EmptyString) = s.
Proof.
  induction s as [|y s IHs]; [done|].
  rewrite app_cons. cbn [Py.slice_m1]. rewrite IHs.
  by destruct s.
Qed.

(** X1: an N at the first position of index-1 is tolerated: whatever
    base [c] index-2 has at the matching place, the matcher accepts
    [N ++ a] against the reverse complement of [c ++ a]. *)
Theorem X1_matching_tolerates_leading_N (a : string) (c : ascii) :
  over_acgt a = true → is_base c = true →
  matching (String "N" a) (reverse_complement (String c a)) = true.
Proof.
  intros Ha Hc. rewrite matching_unfold. unfold matching_spec.
  change (containsN (String "N" a)) with true. cbv iota.
  assert (over_acgt (String c a) = true) as Hca
    by (simpl; by rewrite Hc, Ha).
  rewrite (reverse_complement_involutive _ Hca).
  apply String.eqb_refl.
Qed.

Lemma X1_witness :
  (over_acgt "TAGCGTA" = true ∧ is_base "G" = true) ∧
  matching "NTAGCGTA" (reverse_complement "GTAGCGTA") = true.
Proof.
  split; [by split|].
  apply (X1_matching_tolerates_leading_N "TAGCGTA" "G"); reflexivity.
Defined.

(** X2: an N at the first position of index-2 is tolerated when index-1
    has no N: the last base of index-1 is then not compared. *)
Theorem X2_matching_tolerates_N_in_index2 (a : string) (c : ascii) :
  over_acgt a = true → is_base c = true →
  matching (a +:+ String c EmptyString)
    (String "N" (reverse_complement a)) = true.
Proof.
  intros Ha Hc. rewrite matching_unfold. unfold matching_spec.
  assert (containsN (a +:+ String c EmptyString) = false) as ->.
  { unfold containsN. rewrite contains_app.
    fold (containsN a). rewrite (over_acgt_no_N a Ha). simpl.
    by rewrite (base_not_N c Hc). }
  change (containsN (String "N" (reverse_complement a))) with true.
  cbv iota. cbn [reverse_complement].
  rewrite (reverse_complement_involutive a Ha), !slice_m1_snoc.
  apply String.eqb_refl.
Qed.

Lemma X2_witness :
  (over_acgt "GTAGCGT" = true ∧ is_base "A" = true) ∧
  matching "GTAGCGTA" (String "N" (reverse_complement "GTAGCGT")) = true.
Proof.
  split; [by split|].
  apply (X2_matching_tolerates_N_in_index2 "GTAGCGT" "A"); reflexivity.
Defined.

(** X3: on sequences over A, C, G, T the matcher does not depend on
    which of the two is given first. *)
Theorem X3_matching_symmetric (a b : string) :
  over_acgt a = true → over_acgt b = true →
  matching a b = matching b a.
Proof.
  intros Ha Hb. rewrite !matching_unfold. unfold matching_spec.
  rewrite (over_acgt_no_N a Ha), (over_acgt_no_N b Hb).
  destruct (String.eqb_spec (reverse_complement b) a) as [Hba|Hba];
    destruct (String.eqb_spec (reverse_complement a) b) as [Hab|Hab];
    try done.
  - destruct Hab. by rewrite <- Hba, reverse_complement_involutive.
  - destruct Hba. by rewrite <- Hab, reverse_complement_involutive.
Qed.

Lemma X3_witness :
  (over_acgt "GTAGCGTA" = true ∧ over_acgt "TACGCTAC" = true) ∧
  matching "GTAGCGTA" "TACGCTAC" = matching "TACGCTAC" "GTAGCGTA".
Proof.
  split; [by split|].
  apply (X3_matching_symmetric "GTAGCGTA" "TACGCTAC"); reflexivity.
Defined.

End MatcherExtra.

(** ** The quality test *)

Section QualityExtra.

(** X4: on a record whose quality string is not empty the scorer returns
    the sum of the scores divided by their number, and the record passes
    the cutoff exactly when the sum is at least 32 times the length. *)
Theorem X4_compareMeans_record (read : list (option pyval))
    (quality : string) :
  getitem read 3%nat = Ok (Str quality) → quality ≠ EmptyString →
  meanQS read
  = Ok (Qmake (phred_sum quality) (Pos.of_nat (Py.len quality))) ∧
  compareMeans read
  = Ok (cutoffQS * Z.of_nat (Py.len quality) <=? phred_sum quality).
Proof.
  intros Hq Hne. pose proof (meanQS_record read quality Hq Hne) as Hmean.
  split; [exact Hmean|]. unfold compareMeans. rewrite Hmean. cbn [bind].
  f_equal. unfold Qle_bool, inject_Z. cbn [Qnum Qden].
  rewrite Z.mul_1_r. f_equal. f_equal.
  destruct quality as [|base rest]; [done|].
  unfold Py.len. cbn [String.length].
  rewrite <- Pos.of_nat_succ. reflexivity.
Qed.

Lemma X4_witness :
  (getitem [Some (Str "@index1"); Some (Str "GTAGCGTA"); Some (Str "+");
            Some (Str "IIIIIIII")] 3%nat = Ok (Str "IIIIIIII") ∧
   "IIIIIIII" ≠ EmptyString) ∧
  compareMeans [Some (Str "@index1"); Some (Str "GTAGCGTA"); Some (Str "+");
                Some (Str "IIIIIIII")]
  = Ok (cutoffQS * Z.of_nat (Py.len "IIIIIIII") <=? phred_sum "IIIIIIII").
Proof.
  split; [by split|].
  apply (X4_compareMeans_record
           [Some (Str "@index1"); Some (Str "GTAGCGTA"); Some (Str "+");
            Some (Str "IIIIIIII")]
           "IIIIIIII"); [reflexivity|discriminate].
Defined.

Lemma str_getitem_short (s : string) (i : nat) :
  (Py.len s ≤ i)%nat → Py.str_getitem s i = Raise IndexError.
Proof.
  revert i; induction s as [|x s IHs]; intros i Hi; [done|].
  unfold Py.len in *. cbn [String.length] in Hi.
  destruct i as [|i]; [lia|]. cbn [Py.str_getitem]. apply IHs. lia.
Qed.

(** X5: a group whose index-1 sequence has fewer than four characters is
    not classified: the quality test subscripts the sequence at position 3
    and the classifier ends with IndexError. *)
Theorem X5_short_index_raises (st : state) (i1 i2 : string) :
  index1 st = Some i1 → index2 st = Some i2 → (Py.len i1 < 4)%nat →
  compareMeans i1 = Raise IndexError ∧ classify st = Raise IndexError.
Proof.
  intros Hi1 Hi2 Hshort.
  assert (compareMeans i1 = Raise IndexError) as Hcmp.
  { unfold compareMeans, meanQS.
    rewrite (getitem_str_raise i1 3 IndexError); [reflexivity|].
    apply str_getitem_short. lia. }
  split; [exact Hcmp|]. unfold classify.
  rewrite Hi1, Hi2. cbn [var bind]. by rewrite Hcmp.
Qed.

Lemma X5_witness :
  let st := Sample.group "" "TACGCTAC" "" "!!!!!!!!" in
  (index1 st = Some "" ∧ index2 st = Some "TACGCTAC" ∧
   (Py.len "" < 4)%nat) ∧
  compareMeans "" = Raise IndexError ∧ classify st = Raise IndexError.
Proof.
  intros st.
  assert (Py.len "" < 4)%nat as Hshort by (vm_compute; lia).
  split; [by repeat split|].
  exact (X5_short_index_raises st "" "TACGCTAC" eq_refl eq_refl Hshort).
Defined.

(** X6: the two quality tests are joined by [or]: when the character at
    position 3 of index-1 scores below the cutoff, index-2 is not
    scored, whatever its length, and the QS reason is set and counted. *)
Theorem X6_quality_short_circuit (st : state) (i1 i2 : string) (c1 : ascii) :
  index1 st = Some i1 → index2 st = Some i2 →
  getitem i1 3%nat = Ok (Str (String c1 EmptyString)) →
  convertPhred c1 < cutoffQS →
  ∃ st', classify st = Ok st' ∧ QS st' = QS st + 1 ∧
         flag st' = flag st + Z.b2z (containsN i1 || containsN i2)
                    + 2 * Z.b2z (negb (Matcher.matching i1 i2)) + 4.
Proof.
  intros Hi1 Hi2 Hc1 Hlow.
  assert (compareMeans i1 = Ok false) as Hok1.
  { rewrite (compareMeans_string i1 c1 Hc1). f_equal. by apply Z.leb_gt. }
  destruct (classify st) as [st'|e] eqn:Hclass.
  - exists st'. split; [reflexivity|].
    destruct (classify_Ok st st' i1 i2 Hi1 Hi2 Hclass)
      as (low & Hlow' & Hflag' & _ & _ & HQS & _).
    destruct low; [by rewrite HQS, Hflag'|].
    destruct Hlow' as [? _]. congruence.
  - exfalso. revert Hclass. unfold classify.
    rewrite Hi1, Hi2. cbn [var bind]. rewrite Hok1. cbn [bind negb].
    discriminate.
Qed.

Lemma X6_witness :
  let st := set_index2 (Some "")
              (set_index1 (Some "GTA!CGTA") (init [] [] [] [] ∅)) in
  (index1 st = Some "GTA!CGTA" ∧ index2 st = Some "" ∧
   getitem "GTA!CGTA" 3%nat = Ok (Str "!") ∧ convertPhred "!" < cutoffQS) ∧
  ∃ st', classify st = Ok st' ∧ QS st' = QS st + 1 ∧
         flag st' = flag st + Z.b2z (containsN "GTA!CGTA" || containsN "")
                    + 2 * Z.b2z (negb (Matcher.matching "GTA!CGTA" "")) + 4.
Proof.
  intros st. split; [by repeat split|].
  apply (X6_quality_short_circuit st "GTA!CGTA" "" "!"); reflexivity.
Defined.

End QualityExtra.

(** ** Classification and routing of one group *)

Section GroupExtra.

(** X7: the three tests add 1, 2 and 4 to a flag that starts at 0, so
    they can be read back as its bits 0, 1 and 2 (bit 3 is left clear),
    and each test that fires adds one to its own counter. *)
Theorem X7_flag_bits (st st' : state) (i1 i2 : string) :
  index1 st = Some i1 → index2 st = Some i2 → flag st = 0 →
  classify st = Ok st' →
  Z.testbit (flag st') 0 = containsN i1 || containsN i2 ∧
  Z.testbit (flag st') 1 = negb (Matcher.matching i1 i2) ∧
  Z.testbit (flag st') 3 = false ∧
  N_ st' = N_ st + Z.b2z (Z.testbit (flag st') 0) ∧
  IH st' = IH st + Z.b2z (Z.testbit (flag st') 1) ∧
  QS st' = QS st + Z.b2z (Z.testbit (flag st') 2) ∧
  reads st' = reads st.
Proof.
  intros Hi1 Hi2 Hflag Hclass.
  destruct (classify_Ok st st' i1 i2 Hi1 Hi2 Hclass)
    as (low & _ & Hflag' & HN & HIH & HQS & _ & Hreads & _).
  rewrite Hflag', HN, HIH, HQS, Hflag, Hreads.
  by destruct (containsN i1 || containsN i2), (Matcher.matching i1 i2), low.
Qed.

Lemma X7_witness :
  let st := Sample.group "NACGTCAG" "TTTTTTTT" "IIIIIIII" "IIIIIIII" in
  ∃ st',
    (index1 st = Some "NACGTCAG" ∧ index2 st = Some "TTTTTTTT" ∧
     flag st = 0 ∧ classify st = Ok st') ∧
    Z.testbit (flag st') 0 = containsN "NACGTCAG" || containsN "TTTTTTTT" ∧
    Z.testbit (flag st') 1 = negb (Matcher.matching "NACGTCAG" "TTTTTTTT") ∧
    Z.testbit (flag st') 3 = false ∧
    N_ st' = N_ st + Z.b2z (Z.testbit (flag st') 0) ∧
    IH st' = IH st + Z.b2z (Z.testbit (flag st') 1) ∧
    QS st' = QS st + Z.b2z (Z.testbit (flag st') 2) ∧
    reads st' = reads st.
Proof.
  intros st.
  assert (on_ok (λ _ : state, tt) (classify st) = Some tt) as Hrun
    by (vm_compute; reflexivity).
  destruct (classify st) as [st'|e] eqn:Hclass; [|discriminate].
  exists st'.
  assert (index1 st = Some "NACGTCAG") as Hi1 by reflexivity.
  assert (index2 st = Some "TTTTTTTT") as Hi2 by reflexivity.
  assert (flag st = 0) as Hflag by reflexivity.
  split; [by repeat split|].
  exact (X7_flag_bits st st' _ _ Hi1 Hi2 Hflag Hclass).
Defined.

(** X8: a group with an N in one of its index sequences is never
    accepted, even when the matcher tolerates the N: the N reason is set
    and counted, the group goes to the reject files and the barcode
    table is left as it was. *)
Theorem X8_N_never_accepted (st st1 st2 : state) (i1 i2 : string) :
  index1 st = Some i1 → index2 st = Some i2 → flag st = 0 →
  containsN i1 || containsN i2 = true →
  classify st = Ok st1 → route st1 = Ok st2 →
  Z.testbit (flag st2) 0 = true ∧ N_ st2 = N_ st + 1 ∧
  indices st2 = indices st ∧ ¬ accepted st1 st2 i1 ∧
  ∃ text1 text2,
    files st2 = append_file rejects_R2 text2
                  (append_file rejects_R1 text1 (files st)).
Proof.
  intros Hi1 Hi2 Hflag HN Hclass Hroute.
  destruct (classify_Ok st st1 i1 i2 Hi1 Hi2 Hclass)
    as (low & _ & Hflag1 & HN1 & _ & _ & Hin & _ & Hindices & Hfiles).
  destruct Hin as (_ & _ & _ & _ & _ & _ & _ & _ & Hi1' & _).
  rewrite Hi1 in Hi1'. rewrite Hflag, HN in Hflag1. rewrite HN in HN1.
  cbn [Z.b2z] in Hflag1, HN1.
  pose proof (b2z_range (negb (Matcher.matching i1 i2))) as HbM.
  pose proof (b2z_range low) as HbL.
  destruct (route_Ok st1 st2 i1 Hi1' Hroute)
    as ((_ & _ & _ & _ & HN2 & _) &
        [(Hf1 & _)|[(Hf1 & _)|(Hf1 & Hf2 & Hind2)]]); [lia..|].
  split; [|split; [|split; [|split]]].
  - rewrite Hf2, Hflag1.
    by destruct (negb (Matcher.matching i1 i2)), low.
  - by rewrite HN2, HN1.
  - by rewrite Hind2, Hindices.
  - intros [(count & Hcount & Hcount') _]. rewrite Hind2, Hcount in Hcount'.
    injection Hcount'. lia.
  - revert Hroute. unfold route. rewrite Hi1'. cbn [var bind].
    destruct (Z.eqb_spec (flag st1) 0) as [?|_]; [done|]. intros H.
    apply bind_Ok in H as ([rd1 fs1] & (_ & t1 & Ht1)%writeToBadFile_Ok & H).
    apply bind_Ok in H as ([rd2 fs2] & (_ & t2 & Ht2)%writeToBadFile_Ok & H).
    injection H as <-. exists t1, t2.
    cbn [files set_files set_read1 set_read2] in Ht2 |- *.
    by rewrite Ht2, Ht1, Hfiles.
Qed.

Lemma X8_witness :
  let st := Sample.group "NACGTCAG" "TTTTTTTT" "IIIIIIII" "IIIIIIII" in
  ∃ st1 st2,
    (index1 st = Some "NACGTCAG" ∧ index2 st = Some "TTTTTTTT" ∧
     flag st = 0 ∧ containsN "NACGTCAG" || containsN "TTTTTTTT" = true ∧
     classify st = Ok st1 ∧ route st1 = Ok st2) ∧
    Z.testbit (flag st2) 0 = true ∧ N_ st2 = N_ st + 1 ∧
    indices st2 = indices st ∧ ¬ accepted st1 st2 "NACGTCAG" ∧
    ∃ text1 text2,
      files st2 = append_file rejects_R2 text2
                    (append_file rejects_R1 text1 (files st)).
Proof.
  intros st.
  assert (on_ok (λ _ : state, tt) (st1 <- classify st;; route st1) = Some tt)
    as Hrun by (vm_compute; reflexivity).
  destruct (classify st) as [st1|e1] eqn:Hclass; [|discriminate].
  cbn [bind] in Hrun.
  destruct (route st1) as [st2|e2] eqn:Hroute; [|discriminate].
  exists st1, st2.
  assert (index1 st = Some "NACGTCAG") as Hi1 by reflexivity.
  assert (index2 st = Some "TTTTTTTT") as Hi2 by reflexivity.
  assert (flag st = 0) as Hflag by reflexivity.
  assert (containsN "NACGTCAG" || containsN "TTTTTTTT" = true) as HN
    by reflexivity.
  split; [by repeat split|].
  exact (X8_N_never_accepted st st1 st2 _ _ Hi1 Hi2 Hflag HN Hclass Hroute).
Defined.

End GroupExtra.

(** ** The writers *)

Section WriterExtra.

(** X9: the reject writer puts the tags of the flag, in the order (N),
    (IH), (QS), (E), each after a space, behind the separator line; it
    changes the list it was given in the same way, appends the four
    lines to the named file and leaves every other file alone. *)
Theorem X9_writeToBadFile_tags (path : string) (l0 l1 l2 l3 : string)
    (reason : Z) (fs : gmap string string) :
  ∃ fs',
    writeToBadFile path
      [Some (Str l0); Some (Str l1); Some (Str l2); Some (Str l3)] reason fs
    = Ok ([Some (Str l0); Some (Str l1); Some (Str (l2 +:+ tags reason));
           Some (Str l3)], fs') ∧
    fs' !! path
    = Some (default EmptyString (fs !! path)
            +:+ record_text l0 l1 (l2 +:+ tags reason) l3) ∧
    ∀ other, other ≠ path → fs' !! other = fs !! other.
Proof.
  eexists. split; [apply writeToBadFile_full|]. unfold append_file. split.
  - apply lookup_insert_eq.
  - intros other Hne. by apply lookup_insert_ne.
Qed.

(** X10: a second call on the same list tags its separator line a second
    time, the way the unknown-barcode branch of the main loop does. *)
Theorem X10_writeToBadFile_twice (path1 path2 : string)
    (l0 l1 l2 l3 : string) (reason : Z) (fs : gmap string string) :
  ∃ read fs1 read' fs2,
    writeToBadFile path1
      [Some (Str l0); Some (Str l1); Some (Str l2); Some (Str l3)] reason fs
    = Ok (read, fs1) ∧
    writeToBadFile path2 read reason fs1 = Ok (read', fs2) ∧
    read' = [Some (Str l0); Some (Str l1);
             Some (Str ((l2 +:+ tags reason) +:+ tags reason));
             Some (Str l3)].
Proof.
  eexists _, _, _, _. split; [apply writeToBadFile_full|].
  split; [apply writeToBadFile_full|reflexivity].
Qed.

(** X18: the bucket writer appends the four lines of a record, each
    followed by a newline and otherwise unchanged, to the named file,
    creating the file when it is not there, and leaves every other file
    alone. *)
Theorem X18_writeToGoodFile_appends (path : string) (l0 l1 l2 l3 : string)
    (fs : gmap string string) :
  ∃ fs',
    writeToGoodFile path
      [Some (Str l0); Some (Str l1); Some (Str l2); Some (Str l3)] fs
    = Ok fs' ∧
    fs' !! path
    = Some (default EmptyString (fs !! path) +:+ l0 +:+ nl +:+ l1 +:+ nl
            +:+ l2 +:+ nl +:+ l3 +:+ nl) ∧
    ∀ other, other ≠ path → fs' !! other = fs !! other.
Proof.
  eexists. split; [apply write_record_full|]. unfold append_file. split.
  - apply lookup_insert_eq.
  - intros other Hne. by apply lookup_insert_ne.
Qed.

End WriterExtra.

(** ** The router *)

Section RouterExtra.

Lemma extends_trans (fs1 fs2 fs3 : gmap string string) :
  extends fs1 fs2 → extends fs2 fs3 → extends fs1 fs3.
Proof.
  intros H12 H23 path old H.
  destruct (H12 path old H) as (s1 & H2).
  destruct (H23 path _ H2) as (s2 & H3).
  exists (s1 +:+ s2). by rewrite H3, app_assoc.
Qed.

Lemma extends_append_file (path text : string) (fs : gmap string string) :
  extends fs (append_file path text fs).
Proof.
  intros p old H. unfold append_file.
  destruct (decide (path = p)) as [->|Hne].
  - exists text. by rewrite lookup_insert_eq, H.
  - exists EmptyString. by rewrite lookup_insert_ne, app_nil_r.
Qed.

(** Whatever way the router takes, it appends to two files. *)
Lemma route_appends (st st' : state) (i1 : string) :
  index1 st = Some i1 → route st = Ok st' →
  ∃ path1 text1 path2 text2,
    files st' = append_file path2 text2 (append_file path1 text1 (files st)).
Proof.
  intros Hi1. unfold route. rewrite Hi1. cbn [var bind].
  destruct (flag st =? 0).
  - destruct (indices st !! i1) as [count|].
    + intros H.
      apply bind_Ok in H as (fs1 & (t1 & ->)%writeToGoodFile_Ok & H).
      apply bind_Ok in H as (fs2 & (t2 & ->)%writeToGoodFile_Ok & H).
      injection H as <-. by eexists _, _, _, _.
    + intros H.
      apply bind_Ok in H as (snp & _ & H).
      apply bind_Ok in H as ([rd1 fs1] & (_ & t1 & ->)%writeToBadFile_Ok & H).
      apply bind_Ok in H as ([rd2 fs2] & (_ & t2 & ->)%writeToBadFile_Ok & H).
      injection H as <-. by eexists _, _, _, _.
  - intros H.
    apply bind_Ok in H as ([rd1 fs1] & (_ & t1 & ->)%writeToBadFile_Ok & H).
    apply bind_Ok in H as ([rd2 fs2] & (_ & t2 & ->)%writeToBadFile_Ok & H).
    injection H as <-. by eexists _, _, _, _.
Qed.

(** Classifying and routing a group that starts with an empty flag. *)
Lemma group_unflagged (st st1 st2 : state) (i1 i2 : string) :
  index1 st = Some i1 → index2 st = Some i2 → flag st = 0 →
  classify st = Ok st1 → route st1 = Ok st2 →
  index1 st1 = Some i1 ∧ indices st1 = indices st ∧ files st1 = files st ∧
  reads st2 = reads st ∧ 0 ≤ flag st1 < 8 ∧
  N_ st2 = N_ st1 ∧ IH st2 = IH st1 ∧ QS st2 = QS st1 ∧
  (flag st1 = 0 →
   containsN i1 = false ∧ containsN i2 = false ∧
   Matcher.matching i1 i2 = true ∧
   N_ st1 = N_ st ∧ IH st1 = IH st ∧ QS st1 = QS st).
Proof.
  intros Hi1 Hi2 Hflag Hclass Hroute.
  destruct (classify_Ok st st1 i1 i2 Hi1 Hi2 Hclass)
    as (low & _ & Hflag1 & HN & HIH & HQS & Hin & Hreads & Hindices & Hfiles).
  destruct Hin as (_ & _ & _ & _ & _ & _ & _ & _ & Hi1' & _).
  rewrite Hi1 in Hi1'. rewrite Hflag in Hflag1.
  destruct (route_Ok st1 st2 i1 Hi1' Hroute)
    as ((_ & _ & _ & Hreads' & HN' & HIH' & HQS' & _) & _).
  pose proof (b2z_range (containsN i1 || containsN i2)).
  pose proof (b2z_range (negb (Matcher.matching i1 i2))).
  pose proof (b2z_range low).
  split; [exact Hi1'|]. split; [exact Hindices|]. split; [exact Hfiles|].
  split; [by rewrite Hreads', Hreads|]. split; [lia|].
  split; [exact HN'|]. split; [exact HIH'|]. split; [exact HQS'|].
  intros Hf0. rewrite Hf0 in Hflag1.
  destruct (containsN i1), (containsN i2), (Matcher.matching i1 i2), low;
    cbn [orb negb Z.b2z] in *; repeat split; lia.
Qed.

(** X13: classifying and routing a group leaves the keys of the barcode
    table as they are, the 24 barcodes and the sentinel when the table is
    the one the program creates; only counts change. *)
Theorem X13_table_keys_fixed (st st1 st2 : state) (i1 i2 : string) :
  index1 st = Some i1 → index2 st = Some i2 →
  classify st = Ok st1 → route st1 = Ok st2 →
  dom (indices st2) = dom (indices st) ∧
  (dom (indices st) = dom indices_init →
   ∀ k, is_Some (indices st2 !! k) ↔ k ∈ known_barcodes ∨ k = "SNP").
Proof.
  intros Hi1 Hi2 Hclass Hroute.
  destruct (classify_Ok st st1 i1 i2 Hi1 Hi2 Hclass)
    as (low & _ & _ & _ & _ & _ & Hin & _ & Hindices & _).
  destruct Hin as (_ & _ & _ & _ & _ & _ & _ & _ & Hi1' & _).
  rewrite Hi1 in Hi1'.
  assert (dom (indices st2) = dom (indices st)) as Hdom
    by (by rewrite (route_dom st1 st2 i1 Hi1' Hroute), Hindices).
  split; [exact Hdom|]. intros Hinit k.
  by rewrite <- elem_of_dom, Hdom, Hinit, known_or_sentinel.
Qed.

Lemma X13_witness :
  let st := Sample.group "AAAAAAAA" "TTTTTTTT" "IIIIIIII" "IIIIIIII" in
  ∃ st1 st2,
    (index1 st = Some "AAAAAAAA" ∧ index2 st = Some "TTTTTTTT" ∧
     classify st = Ok st1 ∧ route st1 = Ok st2) ∧
    dom (indices st2) = dom (indices st) ∧
    (dom (indices st) = dom indices_init →
     ∀ k, is_Some (indices st2 !! k) ↔ k ∈ known_barcodes ∨ k = "SNP").
Proof.
  intros st. run_group Hclass Hroute st1 st2. exists st1, st2.
  split; [split_and!; first [reflexivity|exact Hroute]|].
  exact (X13_table_keys_fixed st st1 st2 _ _ eq_refl eq_refl Hclass Hroute).
Defined.

(** X14: classifying and routing a group only appends to files: every
    file that was there is still there, and its old text is a prefix of
    its new text. *)
Theorem X14_files_append_only (st st1 st2 : state) (i1 i2 : string) :
  index1 st = Some i1 → index2 st = Some i2 →
  classify st = Ok st1 → route st1 = Ok st2 →
  extends (files st) (files st2).
Proof.
  intros Hi1 Hi2 Hclass Hroute.
  destruct (classify_Ok st st1 i1 i2 Hi1 Hi2 Hclass)
    as (low & _ & _ & _ & _ & _ & Hin & _ & _ & Hfiles).
  destruct Hin as (_ & _ & _ & _ & _ & _ & _ & _ & Hi1' & _).
  rewrite Hi1 in Hi1'.
  destruct (route_appends st1 st2 i1 Hi1' Hroute)
    as (p1 & t1 & p2 & t2 & Hfiles').
  rewrite Hfiles', Hfiles.
  eapply extends_trans; apply extends_append_file.
Qed.

Lemma X14_witness :
  let st := set_files {[good_R1 "GTAGCGTA" := "earlier run"]}
              (Sample.group "GTAGCGTA" "TACGCTAC" "!!!!!!!!" "!!!!!!!!") in
  ∃ st1 st2,
    (index1 st = Some "GTAGCGTA" ∧ index2 st = Some "TACGCTAC" ∧
     classify st = Ok st1 ∧ route st1 = Ok st2) ∧
    extends (files st) (files st2).
Proof.
  intros st. run_group Hclass Hroute st1 st2. exists st1, st2.
  split; [split_and!; first [reflexivity|exact Hroute]|].
  exact (X14_files_append_only st st1 st2 _ _ eq_refl eq_refl Hclass Hroute).
Defined.

(** X15: a group that reaches the router with a flag other than 0 goes
    to the reject files, the first primary record to rejects_R1 and the
    second to rejects_R2, each with the tags of the flag behind its
    separator line; the flag and the table are left as they are. *)
Theorem X15_rejected_records_tagged (st : state) (i1 : string)
    (a0 a1 a2 a3 b0 b1 b2 b3 : string) :
  index1 st = Some i1 → flag st ≠ 0 →
  read1 st = [Some (Str a0); Some (Str a1); Some (Str a2); Some (Str a3)] →
  read2 st = [Some (Str b0); Some (Str b1); Some (Str b2); Some (Str b3)] →
  ∃ st', route st = Ok st' ∧
    flag st' = flag st ∧ indices st' = indices st ∧
    files st' =
      append_file rejects_R2 (record_text b0 b1 (b2 +:+ tags (flag st)) b3)
        (append_file rejects_R1
           (record_text a0 a1 (a2 +:+ tags (flag st)) a3) (files st)).
Proof.
  intros Hi1 Hflag Hr1 Hr2.
  destruct (route_reject st i1 a0 a1 a2 a3 b0 b1 b2 b3 Hi1 Hflag Hr1 Hr2)
    as (st' & Hroute & Hfiles).
  exists st'. split; [exact Hroute|].
  destruct (route_Ok st st' i1 Hi1 Hroute)
    as (_ & [(Hf & _)|[(Hf & _)|(_ & Hf & Hind)]]); [done..|].
  by split_and!.
Qed.

Lemma X15_witness :
  let st := set_flag 3 (Sample.group "NACGTCAG" "TTTTTTTT" "IIIIIIII"
                          "IIIIIIII") in
  (index1 st = Some "NACGTCAG" ∧ flag st ≠ 0 ∧
   read1 st = [Some (Str "@read1"); Some (Str "ACGTACGT");
               Some (Str "+ NACGTCAG"); Some (Str "IIIIIIII")] ∧
   read2 st = [Some (Str "@read2"); Some (Str "TTGCAAGC");
               Some (Str "+ TTTTTTTT"); Some (Str "IIIIIIII")]) ∧
  ∃ st', route st = Ok st' ∧
    flag st' = flag st ∧ indices st' = indices st ∧
    files st' =
      append_file rejects_R2
        (record_text "@read2" "TTGCAAGC" ("+ TTTTTTTT" +:+ tags (flag st))
           "IIIIIIII")
        (append_file rejects_R1
           (record_text "@read1" "ACGTACGT" ("+ NACGTCAG" +:+ tags (flag st))
              "IIIIIIII") (files st)).
Proof.
  intros st.
  assert (flag st ≠ 0) as Hflag by (cbn; lia).
  split; [by repeat split|].
  exact (X15_rejected_records_tagged st "NACGTCAG" _ _ _ _ _ _ _ _
           eq_refl Hflag eq_refl eq_refl).
Defined.

(** X16: a group that reaches the router with an empty flag and an
    index-1 that is no key of the table is rejected with flag 8 and
    counted under the sentinel key; rejects_R1 receives the first primary
    record tagged (E) and rejects_R2 receives the first primary record
    again, tagged (E) twice; the second primary record is not written. *)
Theorem X16_unknown_barcode_records (st : state) (i1 : string) (count : Z)
    (a0 a1 a2 a3 : string) :
  index1 st = Some i1 → flag st = 0 → indices st !! i1 = None →
  indices st !! "SNP" = Some count →
  read1 st = [Some (Str a0); Some (Str a1); Some (Str a2); Some (Str a3)] →
  ∃ st', route st = Ok st' ∧ flag st' = 8 ∧
    indices st' = <["SNP" := count + 1]> (indices st) ∧
    files st' =
      append_file rejects_R2
        (record_text a0 a1 ((a2 +:+ " (E)") +:+ " (E)") a3)
        (append_file rejects_R1 (record_text a0 a1 (a2 +:+ " (E)") a3)
           (files st)).
Proof.
  intros Hi1 Hflag Hnone Hsnp Hr1.
  destruct (route_unknown st i1 count a0 a1 a2 a3 Hi1 Hflag Hnone Hsnp Hr1)
    as (st' & Hroute & Hfiles).
  exists st'. split; [exact Hroute|].
  destruct (route_Ok st st' i1 Hi1 Hroute)
    as (_ & [(_ & _ & (c & Hc & _) & _)
            |[(_ & Hf & _ & c & Hc & Hind)|(Hne & _)]]);
    [congruence| |done].
  split; [exact Hf|]. split; [|exact Hfiles].
  rewrite Hind. congruence.
Qed.

Lemma X16_witness :
  let st := Sample.group "AAAAAAAA" "TTTTTTTT" "IIIIIIII" "IIIIIIII" in
  (index1 st = Some "AAAAAAAA" ∧ flag st = 0 ∧
   indices st !! "AAAAAAAA" = None ∧ indices st !! "SNP" = Some 0 ∧
   read1 st = [Some (Str "@read1"); Some (Str "ACGTACGT");
               Some (Str "+ AAAAAAAA"); Some (Str "IIIIIIII")]) ∧
  ∃ st', route st = Ok st' ∧ flag st' = 8 ∧
    indices st' = <["SNP" := 0 + 1]> (indices st) ∧
    files st' =
      append_file rejects_R2
        (record_text "@read1" "ACGTACGT"
           (("+ AAAAAAAA" +:+ " (E)") +:+ " (E)") "IIIIIIII")
        (append_file rejects_R1
           (record_text "@read1" "ACGTACGT" ("+ AAAAAAAA" +:+ " (E)")
              "IIIIIIII") (files st)).
Proof.
  intros st.
  assert (indices st !! "AAAAAAAA" = None) as Hnone by reflexivity.
  assert (indices st !! "SNP" = Some 0) as Hsnp by reflexivity.
  split; [by repeat split|].
  exact (X16_unknown_barcode_records st "AAAAAAAA" 0 _ _ _ _
           eq_refl eq_refl Hnone Hsnp eq_refl).
Defined.

(** X19: a group that leaves the router with an empty flag is counted
    once under its own barcode, which is index-1: index-1 and index-2
    are free of N and match, the count of index-1 in the table goes up
    by one, no other count changes and no reason counter moves. *)
Theorem X19_accepted_group_counted (st st1 st2 : state) (i1 i2 : string) :
  index1 st = Some i1 → index2 st = Some i2 → flag st = 0 →
  classify st = Ok st1 → route st1 = Ok st2 → flag st2 = 0 →
  containsN i1 = false ∧ containsN i2 = false ∧
  Matcher.matching i1 i2 = true ∧
  (∃ count, indices st !! i1 = Some count ∧
            indices st2 = <[i1 := count + 1]> (indices st)) ∧
  reads st2 = reads st ∧
  N_ st2 = N_ st ∧ IH st2 = IH st ∧ QS st2 = QS st.
Proof.
  intros Hi1 Hi2 Hflag Hclass Hroute Hflag2.
  destruct (group_unflagged st st1 st2 i1 i2 Hi1 Hi2 Hflag Hclass Hroute)
    as (Hi1' & Hindices & _ & Hreads & Hrange & HN' & HIH' & HQS' & Hclean).
  destruct (route_Ok st1 st2 i1 Hi1' Hroute)
    as (_ & [(Hf1 & _ & (count & Hcount & Hind) & _)
            |[(_ & Hf8 & _)|(Hne & Hsame & _)]]); [|lia..].
  destruct (Hclean Hf1) as (HcN1 & HcN2 & Hmatch & HN & HIH & HQS).
  split; [exact HcN1|]. split; [exact HcN2|]. split; [exact Hmatch|].
  split; [exists count; by rewrite <- Hindices|].
  split; [exact Hreads|].
  by rewrite HN', HIH', HQS', HN, HIH, HQS.
Qed.

Lemma X19_witness :
  let st := Sample.group "GTAGCGTA" "TACGCTAC" "!!!!!!!!" "!!!!!!!!" in
  ∃ st1 st2,
    (index1 st = Some "GTAGCGTA" ∧ index2 st = Some "TACGCTAC" ∧
     flag st = 0 ∧ classify st = Ok st1 ∧ route st1 = Ok st2 ∧
     flag st2 = 0) ∧
    containsN "GTAGCGTA" = false ∧ containsN "TACGCTAC" = false ∧
    Matcher.matching "GTAGCGTA" "TACGCTAC" = true ∧
    (∃ count, indices st !! "GTAGCGTA" = Some count ∧
              indices st2 = <["GTAGCGTA" := count + 1]> (indices st)) ∧
    reads st2 = reads st ∧
    N_ st2 = N_ st ∧ IH st2 = IH st ∧ QS st2 = QS st.
Proof.
  intros st. run_group Hclass Hroute st1 st2. exists st1, st2.
  observe_group Hclass Hroute flag Hflag2.
  split; [split_and!; first [reflexivity|exact Hroute|exact Hflag2]|].
  exact (X19_accepted_group_counted st st1 st2 _ _ eq_refl eq_refl eq_refl
           Hclass Hroute Hflag2).
Defined.

(** X20: a group that leaves the router with flag 8, its only reason the
    unknown barcode, is counted once under the sentinel key "SNP":
    index-1 and index-2 are free of N and match, index-1 is no key of the
    table, and no reason counter moves. *)
Theorem X20_unknown_group_counted (st st1 st2 : state) (i1 i2 : string) :
  index1 st = Some i1 → index2 st = Some i2 → flag st = 0 →
  classify st = Ok st1 → route st1 = Ok st2 → flag st2 = 8 →
  containsN i1 = false ∧ containsN i2 = false ∧
  Matcher.matching i1 i2 = true ∧
  indices st !! i1 = None ∧
  (∃ count, indices st !! "SNP" = Some count ∧
            indices st2 = <["SNP" := count + 1]> (indices st)) ∧
  reads st2 = reads st ∧
  N_ st2 = N_ st ∧ IH st2 = IH st ∧ QS st2 = QS st.
Proof.
  intros Hi1 Hi2 Hflag Hclass Hroute Hflag2.
  destruct (group_unflagged st st1 st2 i1 i2 Hi1 Hi2 Hflag Hclass Hroute)
    as (Hi1' & Hindices & _ & Hreads & Hrange & HN' & HIH' & HQS' & Hclean).
  destruct (route_Ok st1 st2 i1 Hi1' Hroute)
    as (_ & [(_ & Hf0 & _)
            |[(Hf1 & _ & Hnone & count & Hsnp & Hind)|(Hne & Hsame & _)]]);
    [lia| |lia].
  destruct (Hclean Hf1) as (HcN1 & HcN2 & Hmatch & HN & HIH & HQS).
  split; [exact HcN1|]. split; [exact HcN2|]. split; [exact Hmatch|].
  split; [by rewrite <- Hindices|].
  split; [exists count; by rewrite <- Hindices|].
  split; [exact Hreads|].
  by rewrite HN', HIH', HQS', HN, HIH, HQS.
Qed.

Lemma X20_witness :
  let st := Sample.group "AAAAAAAA" "TTTTTTTT" "IIIIIIII" "IIIIIIII" in
  ∃ st1 st2,
    (index1 st = Some "AAAAAAAA" ∧ index2 st = Some "TTTTTTTT" ∧
     flag st = 0 ∧ classify st = Ok st1 ∧ route st1 = Ok st2 ∧
     flag st2 = 8) ∧
    containsN "AAAAAAAA" = false ∧ containsN "TTTTTTTT" = false ∧
    Matcher.matching "AAAAAAAA" "TTTTTTTT" = true ∧
    indices st !! "AAAAAAAA" = None ∧
    (∃ count, indices st !! "SNP" = Some count ∧
              indices st2 = <["SNP" := count + 1]> (indices st)) ∧
    reads st2 = reads st ∧
    N_ st2 = N_ st ∧ IH st2 = IH st ∧ QS st2 = QS st.
Proof.
  intros st. run_group Hclass Hroute st1 st2. exists st1, st2.
  observe_group Hclass Hroute flag Hflag2.
  split; [split_and!; first [reflexivity|exact Hroute|exact Hflag2]|].
  exact (X20_unknown_group_counted st st1 st2 _ _ eq_refl eq_refl eq_refl
           Hclass Hroute Hflag2).
Defined.

End RouterExtra.

(** ** The program on the streams it opens *)

Section ProgramExtra.

(** X11: on a first stream opened in binary mode the end test of the for
    loop never fires, whatever the stream yields, and no turn of the while
    loop is completed: the first two turns of the for loop store the lines
    they read, the third raises TypeError when it adds [" "] to the
    separator line, and the loop ends with that exception. *)
Theorem X11_binary_stream_raises (st : state) (fuel : nat) :
  wf st → opened (R1 st) = Binary → end_ st = false →
  (∀ x, (x < 4)%nat → x ≠ 2%nat → read_step x st = Ok (fetch x st, false)) ∧
  read_step 2 st = Raise TypeError ∧
  loop_body st = Raise TypeError ∧
  while_loop (S fuel) st = Some (Raise TypeError).
Proof.
  intros Hwf Hm Hend. split_and!.
  - intros x Hx Hx2. apply read_step_fetch; try done.
    by apply binary_never_empty.
  - by apply read_step_binary.
  - by apply loop_body_binary.
  - by apply while_loop_binary.
Qed.

Lemma X11_witness :
  let st := init Sample.primary1 Sample.primary2 Sample.known1
              Sample.known2 ∅ in
  (wf st ∧ opened (R1 st) = Binary ∧ end_ st = false) ∧
  loop_body st = Raise TypeError ∧
  while_loop 1 st = Some (Raise TypeError).
Proof.
  intros st.
  assert (wf st) as Hwf by (repeat split; reflexivity).
  split; [by repeat split|].
  exact (proj2 (proj2 (X11_binary_stream_raises st 0 Hwf eq_refl eq_refl))).
Defined.

(** X12: the program ends with TypeError on every input: it opens its
    four streams in binary mode, and the loop raises in its first turn
    whatever the four files contain, before any group is counted,
    classified or written. *)
Theorem X12_main_raises_TypeError (r1 r2 i1 i2 : list string)
    (fs : gmap string string) :
  opened (R1 (init r1 r2 i1 i2 fs)) = Binary ∧
  read_loop (seq 0 fastqLines) (set_flag 0 (init r1 r2 i1 i2 fs))
  = Raise TypeError ∧
  main r1 r2 i1 i2 fs = Some (Raise TypeError).
Proof.
  split; [reflexivity|]. split; [|apply main_raises].
  apply read_loop_binary; [apply wf_set_flag, wf_init|reflexivity].
Qed.

End ProgramExtra.
